(** * wecinema-reporting: the task synchronisation layer and its dashboard hooks

    A shallow embedding of [firebase.ts] (the record store client and the
    process-wide task cache) and of [components/useDashboard.ts] (statistics,
    the tester access gate, the realtime task controller and the task filter),
    followed by the properties of the specification stated over it.

    Conventions of the embedding.
    - A JavaScript [Date] is its epoch time in milliseconds ([Z]); the calls
      [new Date()], [Date.now()] and [Timestamp.now()] read a clock that the
      embedded functions receive as the argument [now].
    - A function that may throw returns a [Result]; an [await]ed store call
      takes the reply of the store ([net], [None] when the transport works).
    - Module-level [let] variables of [firebase.ts] and React state cells are
      fields of explicit state records threaded through the functions.
    - Strings are sequences of code units below 256 (Latin-1).
    - Counts, days and hours are integers.  A percentage that the code
      rounds is rounded from the IEEE 754 doubles that the runtime computes;
      the velocity and the progress of a phase, which the code does not
      round, are kept as the quotient itself. *)

From stdpp Require Import gmap strings list fin_maps.
From Stdlib Require Import ZArith QArith Ascii SpecFloat.

Local Open Scope Z_scope.
Local Set Warnings "-register-all".

(* ===================================================================== *)
(** ** JavaScript values, errors and string primitives *)
(* ===================================================================== *)

Module Js.

(** What a [throw] carries: a store error with its code, a [TypeError]
    raised by the runtime, or a plain [new Error(message)]. *)
Inductive JsError : Type :=
| FirestoreError (code : string)
| TypeError (message : string)
| Error (message : string).

Inductive Result (A : Type) : Type :=
| Ok (a : A)
| Throw (e : JsError).
Arguments Ok {A} a.
Arguments Throw {A} e.

Definition bind {A B} (r : Result A) (k : A -> Result B) : Result B :=
  match r with
  | Ok a => k a
  | Throw e => Throw e
  end.

(** [try { body } catch (error) { handler }] *)
Definition try_catch {A} (body : Result A) (handler : JsError -> Result A)
  : Result A :=
  match body with
  | Ok a => Ok a
  | Throw e => handler e
  end.

(** The store's native timestamp: seconds and nanoseconds since the epoch. *)
Record Timestamp : Type := { seconds : Z; nanoseconds : Z }.

(** *** Numbers

    A JavaScript number is an IEEE 754 binary64 value: 53 bits of
    precision, round to nearest even. *)
Definition prec : Z := 53.
Definition emax : Z := 1024.

(** The double of an integer (the integer itself below 2^53). *)
Definition Number (z : Z) : spec_float := binary_normalize prec emax z 0 false.

Definition number_add : spec_float -> spec_float -> spec_float :=
  SFadd prec emax.
Definition number_mul : spec_float -> spec_float -> spec_float :=
  SFmul prec emax.
Definition number_div : spec_float -> spec_float -> spec_float :=
  SFdiv prec emax.

(** [Math.round(x)] of a finite double: the nearest integer, a half going
    up.  Not-a-number and the infinities have no integer value; they do not
    arise where the code rounds (the quotient of an integer by a positive
    one) and are sent to 0 here. *)
Definition Math_round (x : spec_float) : Z :=
  match x with
  | S754_finite s m e =>
      let n := if s then Zneg m else Zpos m in
      if 0 <=? e then n * 2 ^ e else (2 * n + 2 ^ (- e)) / (2 * 2 ^ (- e))
  | _ => 0
  end.

(** The integer part of a finite double, as [new Date(x)] keeps it. *)
Definition truncate (x : spec_float) : Z :=
  match x with
  | S754_finite s m e =>
      let n := if 0 <=? e then Zpos m * 2 ^ e else Zpos m / 2 ^ (- e) in
      if s then - n else n
  | _ => 0
  end.

(** [Timestamp.toDate()] of the store SDK: [new Date(this.toMillis())],
    where [toMillis()] is [this.seconds * 1000 + this.nanoseconds / 1e6]
    computed in doubles. *)
Definition Timestamp_toDate (t : Timestamp) : Z :=
  truncate
    (number_add (number_mul (Number (seconds t)) (Number 1000))
                (number_div (Number (nanoseconds t)) (Number 1000000))).
#[global] Arguments Timestamp_toDate : simpl never.

(** [Timestamp.now()] of the store SDK, from the clock in milliseconds. *)
Definition Timestamp_now (now : Z) : Timestamp :=
  {| seconds := now / 1000; nanoseconds := (now mod 1000) * 1000000 |}.

(** A value of static type [unknown].  [JsFunction] carries what calling
    the function with no argument does; [JsObject] is any object that is
    neither a store [Timestamp] nor a [Date], with the properties visible
    through [in] (own or inherited). *)
Inductive JsValue : Type :=
| JsUndefined
| JsNull
| JsBoolean (b : bool)
| JsNumber (n : Z)
| JsString (s : string)
| JsTimestamp (t : Timestamp)
| JsDate (ms : Z)
| JsArray (items : list JsValue)
| JsFunction (call : Result JsValue)
| JsObject (props : list (string * JsValue)).

(** Truthiness, as tested by [&&], [||], [!] and [if]. *)
Definition truthy (v : JsValue) : bool :=
  match v with
  | JsUndefined | JsNull => false
  | JsBoolean b => b
  | JsNumber n => negb (n =? 0)
  | JsString s => negb (String.eqb s "")
  | _ => true
  end.

(** [typeof v === 'object'] *)
Definition typeof_object (v : JsValue) : bool :=
  match v with
  | JsNull | JsTimestamp _ | JsDate _ | JsArray _ | JsObject _ => true
  | _ => false
  end.

Fixpoint get_prop (name : string) (props : list (string * JsValue))
  : option JsValue :=
  match props with
  | [] => None
  | (k, v) :: rest => if String.eqb k name then Some v else get_prop name rest
  end.

(** ['toDate' in v], for a [v] that passed the two [instanceof] tests and
    is a non-null object.  Arrays carry no such member. *)
Definition has_toDate (v : JsValue) : bool :=
  match v with
  | JsObject props => bool_decide (is_Some (get_prop "toDate" props))
  | _ => false
  end.

(** [v.toDate()] on an object having the member: the member is called
    when it is a function, otherwise the runtime raises a [TypeError]. *)
Definition call_toDate (v : JsValue) : Result JsValue :=
  match v with
  | JsObject props =>
      match get_prop "toDate" props with
      | Some (JsFunction call) => call
      | _ => Throw (TypeError "timestamp.toDate is not a function")
      end
  | _ => Throw (TypeError "timestamp.toDate is not a function")
  end.

(** *** Strings *)

Definition code (c : ascii) : N := N_of_ascii c.

(** [String.prototype.toLowerCase] on one code unit below 256: the
    letters A-Z and the Latin-1 capitals U+00C0-U+00DE (U+00D7 apart)
    move up by 32. *)
Definition lower_char (c : ascii) : ascii :=
  let n := code c in
  if ((65 <=? n) && (n <=? 90))%N
     || ((192 <=? n) && (n <=? 222) && negb (n =? 215))%N
  then ascii_of_N (n + 32) else c.

Fixpoint toLowerCase (s : string) : string :=
  match s with
  | EmptyString => EmptyString
  | String c rest => String (lower_char c) (toLowerCase rest)
  end.

(** White space and line terminators below 256. *)
Definition is_space (c : ascii) : bool :=
  let n := code c in
  (((9 <=? n) && (n <=? 13)) || (n =? 32) || (n =? 160))%N.

Fixpoint trimStart (s : string) : string :=
  match s with
  | EmptyString => EmptyString
  | String c rest => if is_space c then trimStart rest else s
  end.

Fixpoint trimEnd (s : string) : string :=
  match s with
  | EmptyString => EmptyString
  | String c rest =>
      match trimEnd rest with
      | EmptyString => if is_space c then EmptyString else String c EmptyString
      | rest' => String c rest'
      end
  end.

Definition trim (s : string) : string := trimEnd (trimStart s).

(** [s.includes(sub)] *)
Fixpoint includes (s sub : string) : bool :=
  String.prefix sub s
  || match s with
     | EmptyString => false
     | String _ rest => includes rest sub
     end.

(** [String(n)] for a non-negative integer. *)
Definition digit (n : nat) : ascii := ascii_of_nat (48 + n).

Fixpoint decimal_fuel (fuel n : nat) (acc : string) : string :=
  match fuel with
  | O => acc
  | S fuel' =>
      let acc' := String (digit (n mod 10)) acc in
      if (n / 10 =? 0)%nat then acc' else decimal_fuel fuel' (n / 10) acc'
  end.

Definition String_of_nat (n : nat) : string := decimal_fuel (S n) n "".

Fixpoint repeat_char (c : ascii) (n : nat) : string :=
  match n with
  | O => EmptyString
  | S n' => String c (repeat_char c n')
  end.

(** [s.padStart(width, c)] with a one-character filler. *)
Definition padStart (s : string) (width : nat) (c : ascii) : string :=
  repeat_char c (width - String.length s) +:+ s.

End Js.

(* ===================================================================== *)
(** ** firebase.ts: the record store client and the task cache *)
(* ===================================================================== *)

Module Firebase.
Import Js.

Definition CACHE_DURATION : Z := 30000.

Inductive TaskStatus : Type := completed | in_progress | pending | blocked.

Inductive TaskPriority : Type := low | medium | high | critical.

Inductive TaskCategory : Type :=
| Cat_Auth | Cat_Media | Cat_Engagement | Cat_Search | Cat_UI
| Cat_Personalization | Cat_Subscription | Cat_Marketplace | Cat_Advanced.

#[global] Instance TaskStatus_eq_dec : EqDecision TaskStatus.
Proof. solve_decision. Defined.

(** [interface Task].  The field [lastUpdated] is declared
    [Timestamp | Date]; at run time it holds whatever [convertTimestamp]
    returned, hence a [JsValue]. *)
Record Task : Type := {
  id : string;
  day : Z;
  title : string;
  module : string;
  status : TaskStatus;
  priority : TaskPriority;
  category : TaskCategory;
  description : string;
  findings : option string;
  assignedTo : option string;
  estimatedHours : Z;
  actualHours : option Z;
  lastUpdated : JsValue;
  tags : list string
}.

(** [Omit<Task, 'id'>]: a seed record, and the [doc.data()] of a document
    of the task collection as the [as Task] casts take it. *)
Module Data.
Record t : Type := {
  day : Z;
  title : string;
  module : string;
  status : TaskStatus;
  priority : TaskPriority;
  category : TaskCategory;
  description : string;
  findings : option string;
  assignedTo : option string;
  estimatedHours : Z;
  actualHours : option Z;
  lastUpdated : JsValue;
  tags : list string
}.
End Data.

(** One element of [snapshot.docs]: the id of the document and its
    [doc.data()].  The data are untyped: besides the task fields they may
    hold a field named [id] ([data_id]), which the casts [as Task] take for
    a string. *)
Record QueryDocumentSnapshot : Type := {
  doc_id : string;
  data_id : option string;
  doc_data : Data.t
}.

(** The module-level cache: [let tasksCache] and [let lastCacheTime]. *)
Record Cache : Type := {
  tasksCache : option (list Task);
  lastCacheTime : Z
}.

(** The task collection of the remote store: document id to document, a
    document being a map from field names to values. *)
Abbreviation Document := (gmap string JsValue).
Abbreviation Store := (gmap string (gmap string JsValue)).

(** *** convertTimestamp *)

Definition convertTimestamp (now : Z) (timestamp : JsValue) : Result JsValue :=
  match timestamp with
  | JsTimestamp t => Ok (JsDate (Timestamp_toDate t))
  | JsDate ms => Ok (JsDate ms)
  | _ =>
      if truthy timestamp && typeof_object timestamp && has_toDate timestamp
      then call_toDate timestamp
      else Ok (JsDate now)
  end.

(** *** The store SDK, as far as the client calls it *)

(** [await getDocs(query(collection, limit(1)))]: the ids of at most one
    document, or the error of the transport. *)
Definition getDocs_limit1 (net : option JsError) (store : Store)
  : Result (list string) :=
  match net with
  | Some e => Throw e
  | None => Ok (take 1 (map_to_list store).*1)
  end.

(** [snapshot.empty] *)
Definition snapshot_empty {A} (docs : list A) : bool :=
  match docs with [] => true | _ => false end.

(** [await updateDoc(ref, data)]: fails with code [not-found] when the
    document is absent, otherwise overwrites the given fields. *)
Definition updateDoc (net : option JsError) (ref : string) (data : Document)
    (store : Store) : Result Store :=
  match net with
  | Some e => Throw e
  | None =>
      match store !! ref with
      | None => Throw (FirestoreError "not-found")
      | Some old => Ok (<[ref := data ∪ old]> store)
      end
  end.

(** [await setDoc(ref, data, { merge: true })]: creates the document when
    absent, otherwise overwrites the given fields. *)
Definition setDoc_merge (net : option JsError) (ref : string) (data : Document)
    (store : Store) : Result Store :=
  match net with
  | Some e => Throw e
  | None => Ok (<[ref := data ∪ default ∅ (store !! ref)]> store)
  end.

(** [await batch.commit()] of a batch of [set] operations: all of them or
    none. *)
Definition batch_commit (net : option JsError) (sets : list (string * Document))
    (store : Store) : Result Store :=
  match net with
  | Some e => Throw e
  | None => Ok (foldl (fun st op => <[op.1 := op.2]> st) store sets)
  end.

(** *** Documents written by the client *)

Definition status_string (s : TaskStatus) : string :=
  match s with
  | completed => "completed"
  | in_progress => "in-progress"
  | pending => "pending"
  | blocked => "blocked"
  end.

Definition priority_string (p : TaskPriority) : string :=
  match p with
  | low => "low" | medium => "medium" | high => "high" | critical => "critical"
  end.

Definition category_string (c : TaskCategory) : string :=
  match c with
  | Cat_Auth => "Auth" | Cat_Media => "Media" | Cat_Engagement => "Engagement"
  | Cat_Search => "Search" | Cat_UI => "UI"
  | Cat_Personalization => "Personalization"
  | Cat_Subscription => "Subscription" | Cat_Marketplace => "Marketplace"
  | Cat_Advanced => "Advanced"
  end.

(** An optional property is a key of the object only when it was given. *)
Definition set_optional (key : string) (v : option JsValue) (d : Document)
  : Document :=
  match v with
  | Some x => <[key := x]> d
  | None => d
  end.

(** The object literal of a seed record, as a document. *)
Definition fields_of (t : Data.t) : Document :=
  set_optional "findings" (JsString <$> Data.findings t)
  (set_optional "assignedTo" (JsString <$> Data.assignedTo t)
  (set_optional "actualHours" (JsNumber <$> Data.actualHours t)
  (<["day" := JsNumber (Data.day t)]>
  (<["title" := JsString (Data.title t)]>
  (<["module" := JsString (Data.module t)]>
  (<["status" := JsString (status_string (Data.status t))]>
  (<["priority" := JsString (priority_string (Data.priority t))]>
  (<["category" := JsString (category_string (Data.category t))]>
  (<["description" := JsString (Data.description t)]>
  (<["estimatedHours" := JsNumber (Data.estimatedHours t)]>
  (<["lastUpdated" := Data.lastUpdated t]>
  (<["tags" := JsArray (JsString <$> Data.tags t)]> ∅)))))))))))).

(** *** checkTasksExist *)

Definition checkTasksExist (net : option JsError) (store : Store) : Result bool :=
  try_catch
    (bind (getDocs_limit1 net store) (fun snapshot =>
     Ok (negb (snapshot_empty snapshot))))
    (fun error => Ok false).

(** *** initializeTasks *)

(** The array literal [initialTasks]; every [lastUpdated: new Date()] in it
    reads the clock. *)
Definition initialTasks (now : Z) : list Data.t :=
  [
    {| Data.day := 1;
       Data.title := "Authentication & Access Control";
       Data.module := "Auth System";
       Data.status := completed;
       Data.priority := high;
       Data.category := Cat_Auth;
       Data.description := "Email/Google OAuth, Session Handling, Role Protection.";
       Data.findings := Some "System stable. No session leakage detected. Role-based access functioning correctly.";
       Data.assignedTo := Some "Hamza Manzoor";
       Data.estimatedHours := 8;
       Data.actualHours := Some 7;
       Data.lastUpdated := JsDate now;
       Data.tags := ["security"; "oauth"; "testing"] |};
    {| Data.day := 2;
       Data.title := "Video & Script Upload System";
       Data.module := "Storage";
       Data.status := completed;
       Data.priority := high;
       Data.category := Cat_Media;
       Data.description := "Multi-format upload, metadata tagging, interruption handling.";
       Data.findings := Some "Upload system stable. No data corruption. Metadata stored accurately.";
       Data.assignedTo := Some "Hamza Manzoor";
       Data.estimatedHours := 10;
       Data.actualHours := Some 12;
       Data.lastUpdated := JsDate now;
       Data.tags := ["storage"; "upload"; "performance"] |};
    {| Data.day := 3;
       Data.title := "Engagement & Interaction";
       Data.module := "Social";
       Data.status := completed;
       Data.priority := medium;
       Data.category := Cat_Engagement;
       Data.description := "Likes, Comments, Bookmarks, Real-time UI.";
       Data.findings := Some "Engagement layer synchronized. Real-time updates working.";
       Data.assignedTo := Some "Hamza Manzoor";
       Data.estimatedHours := 6;
       Data.actualHours := Some 6;
       Data.lastUpdated := JsDate now;
       Data.tags := ["real-time"; "social"; "ux"] |};
    {| Data.day := 4;
       Data.title := "Search & Discovery Engine";
       Data.module := "Search";
       Data.status := completed;
       Data.priority := high;
       Data.category := Cat_Search;
       Data.description := "Voice search, Filters, Graph data aggregation.";
       Data.findings := Some "Search queries optimized. Filter logic verified. Graph data accurate.";
       Data.assignedTo := Some "Hamza Manzoor";
       Data.estimatedHours := 12;
       Data.actualHours := Some 14;
       Data.lastUpdated := JsDate now;
       Data.tags := ["search"; "performance"; "algorithm"] |};
    {| Data.day := 5;
       Data.title := "UI/UX & Static Pages";
       Data.module := "Frontend";
       Data.status := completed;
       Data.priority := medium;
       Data.category := Cat_UI;
       Data.description := "Dark Mode, Responsive Design, Legal Pages.";
       Data.findings := Some "UI responsive across devices. Dark mode consistent.";
       Data.assignedTo := Some "Hamza Manzoor";
       Data.estimatedHours := 8;
       Data.actualHours := Some 7;
       Data.lastUpdated := JsDate now;
       Data.tags := ["ui"; "responsive"; "design-system"] |};
    {| Data.day := 6;
       Data.title := "Personalization & User Data";
       Data.module := "Data";
       Data.status := completed;
       Data.priority := medium;
       Data.category := Cat_Personalization;
       Data.description := "Watch history, Liked videos, Data isolation.";
       Data.findings := Some "User data properly isolated. Personal dashboard stable.";
       Data.assignedTo := Some "Hamza Manzoor";
       Data.estimatedHours := 6;
       Data.actualHours := Some 5;
       Data.lastUpdated := JsDate now;
       Data.tags := ["privacy"; "data"; "isolation"] |};
    {| Data.day := 7;
       Data.title := "Hypemode Role & Access";
       Data.module := "Subscription";
       Data.status := in_progress;
       Data.priority := critical;
       Data.category := Cat_Subscription;
       Data.description := "Role assignment (User/Studio), Feature access control.";
       Data.findings := Some "Testing role switching and premium badge verification...";
       Data.assignedTo := Some "Hamza Manzoor";
       Data.estimatedHours := 10;
       Data.actualHours := Some 4;
       Data.lastUpdated := JsDate now;
       Data.tags := ["subscription"; "roles"; "access-control"] |};
    {| Data.day := 8;
       Data.title := "PayPal Integration";
       Data.module := "Payments";
       Data.status := pending;
       Data.priority := critical;
       Data.category := Cat_Subscription;
       Data.description := "Subscription flow, Webhooks, Expiry detection.";
       Data.findings := None;
       Data.assignedTo := Some "Hamza Manzoor";
       Data.estimatedHours := 12;
       Data.actualHours := None;
       Data.lastUpdated := JsDate now;
       Data.tags := ["payment"; "paypal"; "webhooks"] |};
    {| Data.day := 9;
       Data.title := "Subscription Edge Cases";
       Data.module := "Payments";
       Data.status := pending;
       Data.priority := high;
       Data.category := Cat_Subscription;
       Data.description := "Cancel/Renew logic, Duplicate payment prevention.";
       Data.findings := None;
       Data.assignedTo := Some "Hamza Manzoor";
       Data.estimatedHours := 8;
       Data.actualHours := None;
       Data.lastUpdated := JsDate now;
       Data.tags := ["edge-cases"; "payment"; "renewal"] |};
    {| Data.day := 10;
       Data.title := "Premium Feature Enforcement";
       Data.module := "Access";
       Data.status := pending;
       Data.priority := high;
       Data.category := Cat_Subscription;
       Data.description := "Seller dashboard restriction, Downgrade behavior.";
       Data.findings := None;
       Data.assignedTo := Some "Hamza Manzoor";
       Data.estimatedHours := 6;
       Data.actualHours := None;
       Data.lastUpdated := JsDate now;
       Data.tags := ["enforcement"; "premium"; "downgrade"] |};
    {| Data.day := 11;
       Data.title := "Seller Dashboard Functional";
       Data.module := "Marketplace";
       Data.status := pending;
       Data.priority := high;
       Data.category := Cat_Marketplace;
       Data.description := "CRUD listings, Visibility settings.";
       Data.findings := None;
       Data.assignedTo := Some "Hamza Manzoor";
       Data.estimatedHours := 14;
       Data.actualHours := None;
       Data.lastUpdated := JsDate now;
       Data.tags := ["seller"; "crud"; "dashboard"] |};
    {| Data.day := 12;
       Data.title := "Stripe Connect Setup";
       Data.module := "Finance";
       Data.status := pending;
       Data.priority := critical;
       Data.category := Cat_Marketplace;
       Data.description := "Account connection, KYC, Webhook mapping.";
       Data.findings := None;
       Data.assignedTo := Some "Hamza Manzoor";
       Data.estimatedHours := 16;
       Data.actualHours := None;
       Data.lastUpdated := JsDate now;
       Data.tags := ["stripe"; "kyc"; "onboarding"] |};
    {| Data.day := 13;
       Data.title := "Earnings & Withdrawal";
       Data.module := "Finance";
       Data.status := pending;
       Data.priority := high;
       Data.category := Cat_Marketplace;
       Data.description := "Commission logic, Withdrawal requests.";
       Data.findings := None;
       Data.assignedTo := Some "Hamza Manzoor";
       Data.estimatedHours := 10;
       Data.actualHours := None;
       Data.lastUpdated := JsDate now;
       Data.tags := ["earnings"; "withdrawal"; "commission"] |};
    {| Data.day := 14;
       Data.title := "Offer & Order Management";
       Data.module := "Marketplace";
       Data.status := pending;
       Data.priority := medium;
       Data.category := Cat_Marketplace;
       Data.description := "Accept/Reject offers, Order creation triggers.";
       Data.findings := None;
       Data.assignedTo := Some "Hamza Manzoor";
       Data.estimatedHours := 12;
       Data.actualHours := None;
       Data.lastUpdated := JsDate now;
       Data.tags := ["offers"; "orders"; "workflow"] |};
    {| Data.day := 15;
       Data.title := "Buyer Dashboard Testing";
       Data.module := "Orders";
       Data.status := pending;
       Data.priority := medium;
       Data.category := Cat_Marketplace;
       Data.description := "Order states, Visibility, History.";
       Data.findings := None;
       Data.assignedTo := Some "Hamza Manzoor";
       Data.estimatedHours := 8;
       Data.actualHours := None;
       Data.lastUpdated := JsDate now;
       Data.tags := ["buyer"; "orders"; "history"] |};
    {| Data.day := 16;
       Data.title := "Order Lifecycle & Stripe";
       Data.module := "Orders";
       Data.status := pending;
       Data.priority := high;
       Data.category := Cat_Marketplace;
       Data.description := "Payment verification, State transitions.";
       Data.findings := None;
       Data.assignedTo := Some "Hamza Manzoor";
       Data.estimatedHours := 14;
       Data.actualHours := None;
       Data.lastUpdated := JsDate now;
       Data.tags := ["lifecycle"; "stripe"; "verification"] |};
    {| Data.day := 17;
       Data.title := "Buyer-Seller Messaging";
       Data.module := "Chat";
       Data.status := pending;
       Data.priority := medium;
       Data.category := Cat_Marketplace;
       Data.description := "Real-time chat, Order-linked conversations.";
       Data.findings := None;
       Data.assignedTo := Some "Hamza Manzoor";
       Data.estimatedHours := 16;
       Data.actualHours := None;
       Data.lastUpdated := JsDate now;
       Data.tags := ["chat"; "real-time"; "messaging"] |};
    {| Data.day := 18;
       Data.title := "Video Editor & Processing";
       Data.module := "Advanced";
       Data.status := pending;
       Data.priority := low;
       Data.category := Cat_Advanced;
       Data.description := "Editing workflow, Export validation, Memory optimization.";
       Data.findings := None;
       Data.assignedTo := Some "Hamza Manzoor";
       Data.estimatedHours := 20;
       Data.actualHours := None;
       Data.lastUpdated := JsDate now;
       Data.tags := ["video-editor"; "processing"; "memory"] |};
    {| Data.day := 19;
       Data.title := "AI Chatbot & Support";
       Data.module := "Advanced";
       Data.status := pending;
       Data.priority := medium;
       Data.category := Cat_Advanced;
       Data.description := "AI accuracy, Escalation flows.";
       Data.findings := None;
       Data.assignedTo := Some "Hamza Manzoor";
       Data.estimatedHours := 18;
       Data.actualHours := None;
       Data.lastUpdated := JsDate now;
       Data.tags := ["ai"; "chatbot"; "support"] |};
    {| Data.day := 20;
       Data.title := "Final Audit & Launch Readiness";
       Data.module := "Audit";
       Data.status := pending;
       Data.priority := critical;
       Data.category := Cat_Advanced;
       Data.description := "Full regression testing, Performance audit.";
       Data.findings := None;
       Data.assignedTo := Some "Hamza Manzoor";
       Data.estimatedHours := 24;
       Data.actualHours := None;
       Data.lastUpdated := JsDate now;
       Data.tags := ["audit"; "regression"; "launch"] |}
  ]
.

(** [`task_${String(index + 1).padStart(3, '0')}`] *)
Definition task_doc_id (index : nat) : string :=
  "task_" +:+ padStart (String_of_nat (index + 1)) 3 "0"%char.

(** [{ ...task, lastUpdated: now, createdAt: now, order: index + 1 }] with
    [now = Timestamp.now()]. *)
Definition seed_document (now : Z) (index : nat) (task : Data.t) : Document :=
  <["order" := JsNumber (Z.of_nat index + 1)]>
  (<["createdAt" := JsTimestamp (Timestamp_now now)]>
  (<["lastUpdated" := JsTimestamp (Timestamp_now now)]> (fields_of task))).

(** The [batch.set] calls queued by [initialTasks.forEach]. *)
Definition seed_batch (now : Z) : list (string * Document) :=
  imap (fun index task => (task_doc_id index, seed_document now index task))
       (initialTasks now).

(** The remote collection together with the module state of the client. *)
Record World : Type := {
  remote : Store;
  local : Cache
}.

(** [initializeTasks(force)].  [probe_net] and [commit_net] are the replies
    of the transport to the existence probe and to the batch commit. *)
Definition initializeTasks (force : bool) (now : Z)
    (probe_net commit_net : option JsError) (w : World) : Result unit * World :=
  match checkTasksExist probe_net (remote w) with
  | Ok found =>
      if found && negb force then (Ok tt, w)
      else
        match batch_commit commit_net (seed_batch now) (remote w) with
        | Ok written =>
            (Ok tt,
             {| remote := written;
                local := {| tasksCache := None;
                            lastCacheTime := lastCacheTime (local w) |} |})
        | Throw error =>
            (Throw (Error "Failed to initialize tasks. Please try again."), w)
        end
  | Throw error =>
      (Throw (Error "Failed to initialize tasks. Please try again."), w)
  end.

(** *** fetchTasks *)

Record FetchOptions : Type := {
  useCache : option bool;
  limit : option Z
}.

(** [array.slice(0, n)] *)
Definition slice0 {A} (l : list A) (n : Z) : list A :=
  if n <? 0 then take (Z.to_nat (Z.of_nat (length l) + n)) l
  else take (Z.to_nat n) l.

Fixpoint mapM {A B} (f : A -> Result B) (l : list A) : Result (list B) :=
  match l with
  | [] => Ok []
  | x :: rest =>
      bind (f x) (fun y => bind (mapM f rest) (fun ys => Ok (y :: ys)))
  end.

(** [{ id: doc.id, ...data, lastUpdated: convertTimestamp(data.lastUpdated) }]:
    the data are spread after [id], so a field [id] of the data replaces the
    id of the document. *)
Definition task_of_doc (now : Z) (doc : QueryDocumentSnapshot) : Result Task :=
  let data := doc_data doc in
  bind (convertTimestamp now (Data.lastUpdated data)) (fun converted =>
  Ok {| id := default (doc_id doc) (data_id doc);
        day := Data.day data;
        title := Data.title data;
        module := Data.module data;
        status := Data.status data;
        priority := Data.priority data;
        category := Data.category data;
        description := Data.description data;
        findings := Data.findings data;
        assignedTo := Data.assignedTo data;
        estimatedHours := Data.estimatedHours data;
        actualHours := Data.actualHours data;
        lastUpdated := converted;
        tags := Data.tags data |}).

(** The test [useCache && tasksCache && (Date.now() - lastCacheTime) <
    CACHE_DURATION] that guards the early return. *)
Definition cache_fresh (useCache_ : bool) (now : Z) (c : Cache) : bool :=
  useCache_ && bool_decide (is_Some (tasksCache c))
  && (now - lastCacheTime c <? CACHE_DURATION).

(** [fetchTasks(options)].  [now] is the clock at the call, [reply] what
    building and running the ordered query gives ([getDocs]), [now'] the
    clock once the reply is in. *)
Definition fetchTasks (options : option FetchOptions) (now : Z)
    (reply : Result (list QueryDocumentSnapshot)) (now' : Z) (c : Cache)
  : Result (list Task) * Cache :=
  let useCache_ := default true (options ≫= useCache) in
  let limitCount := options ≫= limit in
  if cache_fresh useCache_ now c then
    let cached := default [] (tasksCache c) in
    (Ok (match limitCount with
         | Some n => if n =? 0 then cached else slice0 cached n
         | None => cached
         end), c)
  else
    match bind reply (mapM (task_of_doc now')) with
    | Ok tasks => (Ok tasks, {| tasksCache := Some tasks; lastCacheTime := now' |})
    | Throw error =>
        match tasksCache c with
        | Some cached => (Ok cached, c)
        | None =>
            (Throw (Error "Failed to fetch tasks. Please check your connection."), c)
        end
    end.

(** *** subscribeToTasks *)

(** The two handlers that [subscribeToTasks] passes to [onSnapshot].  [S] is
    the state that the consumer's callbacks act on; a handler that throws
    leaves both states as they were. *)
Record Observer (S : Type) : Type := {
  next : Z -> list QueryDocumentSnapshot -> Cache * S -> Cache * S;
  error : JsError -> Cache * S -> Cache * S
}.
Arguments next {S} _ _ _ _.
Arguments error {S} _ _ _.

Definition subscribeToTasks {S : Type} (callback : list Task -> Z -> S -> S)
    (onError : option (JsError -> S -> S)) : Observer S :=
  {| next := fun now docs st =>
       match mapM (task_of_doc now) docs with
       | Ok tasks =>
           ({| tasksCache := Some tasks; lastCacheTime := now |},
            callback tasks now st.2)
       | Throw _ => st
       end;
     error := fun err st =>
       match onError with
       | Some handler => (st.1, handler err st.2)
       | None => st
       end |}.

(** *** updateTaskStatus *)

Record UpdateOptions : Type := {
  opt_actualHours : option Z;
  opt_findings : option string;
  merge : option bool
}.

(** The object [updateData] sent to the store. *)
Definition updateData (now : Z) (newStatus : TaskStatus)
    (actualHours_ : option Z) (findings_ : option string) : Document :=
  set_optional "findings" (JsString <$> findings_)
  (set_optional "actualHours" (JsNumber <$> actualHours_)
  (<["status" := JsString (status_string newStatus)]>
  (<["lastUpdated" := JsTimestamp (Timestamp_now now)]> ∅))).

(** [{ ...tasksCache[taskIndex], ...updateData, lastUpdated: new Date() }] *)
Definition patch_task (now' : Z) (newStatus : TaskStatus)
    (actualHours_ : option Z) (findings_ : option string) (old : Task) : Task :=
  {| id := id old;
     day := day old;
     title := title old;
     module := module old;
     status := newStatus;
     priority := priority old;
     category := category old;
     description := description old;
     findings := match findings_ with Some f => Some f | None => findings old end;
     assignedTo := assignedTo old;
     estimatedHours := estimatedHours old;
     actualHours :=
       match actualHours_ with Some h => Some h | None => actualHours old end;
     lastUpdated := JsDate now';
     tags := tags old |}.

(** The block under [// Optimistic cache update]. *)
Definition optimistic_update (taskId : string) (patch : Task -> Task) (c : Cache)
  : Cache :=
  match tasksCache c with
  | Some cached =>
      match list_find (fun t => id t = taskId) cached with
      | Some (taskIndex, old) =>
          {| tasksCache := Some (<[taskIndex := patch old]> cached);
             lastCacheTime := lastCacheTime c |}
      | None => c
      end
  | None => c
  end.

(** [updateTaskStatus(taskId, newStatus, options)].  [now] is the clock
    before the write, [net] the reply of the transport, [now'] the clock
    after the write. *)
Definition updateTaskStatus (taskId : string) (newStatus : TaskStatus)
    (options : option UpdateOptions) (now : Z) (net : option JsError) (now' : Z)
    (w : World) : Result unit * World :=
  let actualHours_ := options ≫= opt_actualHours in
  let findings_ := options ≫= opt_findings in
  let merge_ := default true (options ≫= merge) in
  let data := updateData now newStatus actualHours_ findings_ in
  match (if merge_ then updateDoc net taskId data (remote w)
         else setDoc_merge net taskId data (remote w)) with
  | Ok written =>
      (Ok tt,
       {| remote := written;
          local := optimistic_update taskId
                     (patch_task now' newStatus actualHours_ findings_) (local w) |})
  | Throw error =>
      (Throw (Error "Failed to update task status. Please try again."), w)
  end.

(** *** clearCache *)

Definition clearCache (c : Cache) : Cache :=
  {| tasksCache := None; lastCacheTime := 0 |}.

(** *** getTaskById *)

(** [getTaskById(taskId)].  [reply] is what [getDoc] gives: the snapshot of
    an existing document, [None] when [docSnap.exists()] is false, or the
    error of the transport, which the [catch] block throws again as it is. *)
Definition getTaskById (now : Z) (reply : Result (option QueryDocumentSnapshot))
  : Result (option Task) :=
  try_catch
    (bind reply (fun docSnap =>
       match docSnap with
       | None => Ok None
       | Some doc => bind (task_of_doc now doc) (fun task => Ok (Some task))
       end))
    (fun error => Throw error).

(** *** updateTask *)

(** [Partial<Omit<Task, 'id'>>]: each field is given or left out (a field
    given as [undefined], which the store refuses, is not represented). *)
Module Partial.
Record t : Type := {
  day : option Z;
  title : option string;
  module : option string;
  status : option TaskStatus;
  priority : option TaskPriority;
  category : option TaskCategory;
  description : option string;
  findings : option string;
  assignedTo : option string;
  estimatedHours : option Z;
  actualHours : option Z;
  lastUpdated : option JsValue;
  tags : option (list string)
}.
End Partial.

(** The fields of an [updates] object, as a document. *)
Definition partial_fields (u : Partial.t) : Document :=
  set_optional "day" (JsNumber <$> Partial.day u)
  (set_optional "title" (JsString <$> Partial.title u)
  (set_optional "module" (JsString <$> Partial.module u)
  (set_optional "status" (JsString ∘ status_string <$> Partial.status u)
  (set_optional "priority" (JsString ∘ priority_string <$> Partial.priority u)
  (set_optional "category" (JsString ∘ category_string <$> Partial.category u)
  (set_optional "description" (JsString <$> Partial.description u)
  (set_optional "findings" (JsString <$> Partial.findings u)
  (set_optional "assignedTo" (JsString <$> Partial.assignedTo u)
  (set_optional "estimatedHours" (JsNumber <$> Partial.estimatedHours u)
  (set_optional "actualHours" (JsNumber <$> Partial.actualHours u)
  (set_optional "lastUpdated" (Partial.lastUpdated u)
  (set_optional "tags" (JsArray ∘ fmap JsString <$> Partial.tags u)
     ∅)))))))))))).

(** [{ ...updates, lastUpdated: Timestamp.now() }] *)
Definition updateTask_data (now : Z) (updates : Partial.t) : Document :=
  <["lastUpdated" := JsTimestamp (Timestamp_now now)]> (partial_fields updates).

(** [{ ...tasksCache[taskIndex], ...updates, lastUpdated: new Date() }] *)
Definition merge_task (now' : Z) (updates : Partial.t) (old : Task) : Task :=
  {| id := id old;
     day := default (day old) (Partial.day updates);
     title := default (title old) (Partial.title updates);
     module := default (module old) (Partial.module updates);
     status := default (status old) (Partial.status updates);
     priority := default (priority old) (Partial.priority updates);
     category := default (category old) (Partial.category updates);
     description := default (description old) (Partial.description updates);
     findings :=
       match Partial.findings updates with
       | Some f => Some f
       | None => findings old
       end;
     assignedTo :=
       match Partial.assignedTo updates with
       | Some a => Some a
       | None => assignedTo old
       end;
     estimatedHours :=
       default (estimatedHours old) (Partial.estimatedHours updates);
     actualHours :=
       match Partial.actualHours updates with
       | Some h => Some h
       | None => actualHours old
       end;
     lastUpdated := JsDate now';
     tags := default (tags old) (Partial.tags updates) |}.

Record UpdateTaskOptions : Type := {
  ut_merge : option bool
}.

(** [updateTask(taskId, updates, options)], with the clock and the reply of
    the transport as for [updateTaskStatus]. *)
Definition updateTask (taskId : string) (updates : Partial.t)
    (options : option UpdateTaskOptions) (now : Z) (net : option JsError)
    (now' : Z) (w : World) : Result unit * World :=
  let merge_ := default true (options ≫= ut_merge) in
  let data := updateTask_data now updates in
  match (if merge_ then updateDoc net taskId data (remote w)
         else setDoc_merge net taskId data (remote w)) with
  | Ok written =>
      (Ok tt,
       {| remote := written;
          local := optimistic_update taskId (merge_task now' updates) (local w) |})
  | Throw error =>
      (Throw (Error "Failed to update task. Please try again."), w)
  end.

(** *** deleteTask *)

(** [await deleteDoc(ref)]: removes the document; an absent one is no
    error. *)
Definition deleteDoc (net : option JsError) (ref : string) (store : Store)
  : Result Store :=
  match net with
  | Some e => Throw e
  | None => Ok (delete ref store)
  end.

(** [deleteTask(taskId)]; the cache becomes
    [tasksCache?.filter(t => t.id !== taskId) || null]. *)
Definition deleteTask (taskId : string) (net : option JsError) (w : World)
  : Result unit * World :=
  match deleteDoc net taskId (remote w) with
  | Ok removed =>
      (Ok tt,
       {| remote := removed;
          local :=
            {| tasksCache :=
                 List.filter (fun t => negb (String.eqb (id t) taskId))
                   <$> tasksCache (local w);
               lastCacheTime := lastCacheTime (local w) |} |})
  | Throw error =>
      (Throw (Error "Failed to delete task. Please try again."), w)
  end.

(** *** getFirebaseConfig *)

(** The part of [import.meta.env] that the configuration reads: a variable
    is a string or undefined. *)
Record Env : Type := {
  PROD : bool;
  VITE_FIREBASE_API_KEY : option string;
  VITE_FIREBASE_AUTH_DOMAIN : option string;
  VITE_FIREBASE_PROJECT_ID : option string;
  VITE_FIREBASE_STORAGE_BUCKET : option string;
  VITE_FIREBASE_MESSAGING_SENDER_ID : option string;
  VITE_FIREBASE_APP_ID : option string
}.

Record FirebaseConfig : Type := {
  apiKey : option string;
  authDomain : option string;
  projectId : option string;
  storageBucket : option string;
  messagingSenderId : option string;
  appId : option string
}.

(** Truthiness of a string or undefined. *)
Definition given (value : option string) : bool :=
  match value with
  | Some s => negb (String.eqb s "")
  | None => false
  end.

(** [value || fallback] *)
Definition or_default (value : option string) (fallback : string)
  : option string :=
  if given value then value else Some fallback.

(** [Object.entries(config)] *)
Definition config_entries (config : FirebaseConfig)
  : list (string * option string) :=
  [("apiKey", apiKey config);
   ("authDomain", authDomain config);
   ("projectId", projectId config);
   ("storageBucket", storageBucket config);
   ("messagingSenderId", messagingSenderId config);
   ("appId", appId config)].

Definition getFirebaseConfig (env : Env) : Result FirebaseConfig :=
  let config :=
    {| apiKey := VITE_FIREBASE_API_KEY env;
       authDomain := VITE_FIREBASE_AUTH_DOMAIN env;
       projectId := VITE_FIREBASE_PROJECT_ID env;
       storageBucket := VITE_FIREBASE_STORAGE_BUCKET env;
       messagingSenderId := VITE_FIREBASE_MESSAGING_SENDER_ID env;
       appId := VITE_FIREBASE_APP_ID env |} in
  let missing :=
    (List.filter (fun entry => negb (given entry.2)) (config_entries config)).*1 in
  if PROD env && (0 <? Z.of_nat (length missing)) then
    Throw (Error ("Missing Firebase config: " +:+ String.concat ", " missing))
  else
    Ok {| apiKey := or_default (apiKey config) "demo-key";
          authDomain := or_default (authDomain config) "demo.firebaseapp.com";
          projectId := or_default (projectId config) "demo-project";
          storageBucket := storageBucket config;
          messagingSenderId := messagingSenderId config;
          appId := appId config |}.

End Firebase.

(* ===================================================================== *)
(** ** components/useDashboard.ts: the dashboard hooks *)
(* ===================================================================== *)

Module Dashboard.
Import Js Firebase.

Definition TESTER_PASSWORD : string := "wecinema4464".
Definition MAX_ATTEMPTS : Z := 3.
Definition LOCKOUT_DURATION : Z := 5 * 60 * 1000.

(** *** calculateStats *)

(** [interface DashboardStats].  Hours are integers, as in the seed data;
    the completion rate is rounded from the double that the code computes,
    the velocity is kept as the quotient itself. *)
Record DashboardStats : Type := {
  totalTasks : Z;
  completedTasks : Z;
  inProgressTasks : Z;
  blockedTasks : Z;
  completionRate : Z;
  totalHours : Z;
  velocity : Q
}.

(** [tasks.filter((t) => t.status === s).length] *)
Definition count_status (s : TaskStatus) (tasks : list Task) : Z :=
  Z.of_nat (length (List.filter (fun t => bool_decide (status t = s)) tasks)).

(** [t.actualHours || t.estimatedHours || 0] *)
Definition hours_of (t : Task) : Z :=
  let first :=
    match actualHours t with
    | Some h => if h =? 0 then estimatedHours t else h
    | None => estimatedHours t
    end in
  if first =? 0 then 0 else first.

(** [Math.round((a / b) * 100)], the quotient and the product being
    doubles. *)
Definition round_percent (a b : Z) : Z :=
  Math_round (number_mul (number_div (Number a) (Number b)) (Number 100)).
#[global] Arguments round_percent : simpl never.

Definition calculateStats (tasks : list Task) : DashboardStats :=
  let completed_ := count_status completed tasks in
  let inProgress := count_status in_progress tasks in
  let blocked_ := count_status blocked tasks in
  let totalHours_ := foldl (fun acc t => acc + hours_of t) 0 tasks in
  {| totalTasks := Z.of_nat (length tasks);
     completedTasks := completed_;
     inProgressTasks := inProgress;
     blockedTasks := blocked_;
     completionRate :=
       if 0 <? Z.of_nat (length tasks)
       then round_percent completed_ (Z.of_nat (length tasks))
       else 0;
     totalHours := totalHours_;
     velocity := Qmake completed_ 6 |}.

(** *** useTesterAuth *)

Module TesterAuth.

(** The state cells of the hook, the pending [setTimeout] callbacks that
    clear the lock (by the instant they are due), and the two storage items:
    [sessionStorage[AUTH_STORAGE_KEY]] and
    [localStorage[AUTH_STORAGE_KEY + '_lockout']] (the decimal string of an
    instant, kept as the instant). *)
Record State : Type := {
  isAuthenticated : bool;
  showPassword : bool;
  password : string;
  error : string;
  attempts : Z;
  showLoginModal : bool;
  isLocked : bool;
  timers : list Z;
  session_auth : option string;
  local_lockout : option Z
}.

(** [${remaining}] *)
Definition String_of_Z (n : Z) : string :=
  if n <? 0 then "-" +:+ String_of_nat (Z.to_nat (- n))
  else String_of_nat (Z.to_nat n).

(** The state after the first render and the mount effect, given the two
    storage items found. *)
Definition mount (now : Z) (session : option string) (lockout : option Z)
  : State :=
  let locked :=
    match lockout with Some lockoutEnd => now <? lockoutEnd | None => false end in
  {| isAuthenticated :=
       negb locked && bool_decide (session = Some "true");
     showPassword := false;
     password := "";
     error := "";
     attempts := 0;
     showLoginModal := false;
     isLocked := locked;
     timers := match lockout with
               | Some lockoutEnd => if locked then [lockoutEnd] else []
               | None => []
               end;
     session_auth := session;
     local_lockout := lockout |}.

(** The timers due at [now] run [setIsLocked(false)]. *)
Definition advance (now : Z) (s : State) : State :=
  let due := List.filter (fun t => t <=? now) (timers s) in
  {| isAuthenticated := isAuthenticated s;
     showPassword := showPassword s;
     password := password s;
     error := error s;
     attempts := attempts s;
     showLoginModal := showLoginModal s;
     isLocked := match due with [] => isLocked s | _ => false end;
     timers := List.filter (fun t => negb (t <=? now)) (timers s);
     session_auth := session_auth s;
     local_lockout := local_lockout s |}.

(** [login(inputPassword)], called at [now] on the rendered state [s]: the
    returned boolean and the state after the queued updates. *)
Definition login (now : Z) (inputPassword : string) (s : State) : bool * State :=
  if isLocked s then
    (false,
     {| isAuthenticated := isAuthenticated s;
        showPassword := showPassword s;
        password := password s;
        error := "Account temporarily locked. Please try again later.";
        attempts := attempts s;
        showLoginModal := showLoginModal s;
        isLocked := isLocked s;
        timers := timers s;
        session_auth := session_auth s;
        local_lockout := local_lockout s |})
  else if negb (String.eqb inputPassword TESTER_PASSWORD) then
    let newAttempts := attempts s + 1 in
    let remaining := MAX_ATTEMPTS - newAttempts in
    if MAX_ATTEMPTS <=? newAttempts then
      (false,
       {| isAuthenticated := isAuthenticated s;
          showPassword := showPassword s;
          password := password s;
          error := "Too many failed attempts. Account locked for 5 minutes.";
          attempts := newAttempts;
          showLoginModal := showLoginModal s;
          isLocked := true;
          timers := timers s ++ [now + LOCKOUT_DURATION];
          session_auth := session_auth s;
          local_lockout := Some (now + LOCKOUT_DURATION) |})
    else
      (false,
       {| isAuthenticated := isAuthenticated s;
          showPassword := showPassword s;
          password := password s;
          error := "Invalid password. " +:+ String_of_Z remaining +:+ " attempt"
                   +:+ (if remaining =? 1 then "" else "s") +:+ " remaining.";
          attempts := newAttempts;
          showLoginModal := showLoginModal s;
          isLocked := isLocked s;
          timers := timers s;
          session_auth := session_auth s;
          local_lockout := local_lockout s |})
  else
    (true,
     {| isAuthenticated := true;
        showPassword := showPassword s;
        password := password s;
        error := "";
        attempts := 0;
        showLoginModal := false;
        isLocked := isLocked s;
        timers := timers s;
        session_auth := Some "true";
        local_lockout := None |}).







(** Reloading the page: the hook is mounted anew on the storage items the
    old instance left. *)
Definition reload (now : Z) (s : State) : State :=
  mount now (session_auth s) (local_lockout s).

End TesterAuth.

(** *** useRealtimeTasks *)

Module RealtimeTasks.

(** The state cells of the hook; [unsubscribeRef] tells whether the ref
    holds the handle of an open subscription. *)
Record State : Type := {
  tasks : list Task;
  loading : bool;
  lastSync : option Z;
  error : option string;
  unsubscribeRef : bool
}.

(** [useState] initial values. *)
Definition initial : State :=
  {| tasks := []; loading := true; lastSync := None; error := None;
     unsubscribeRef := false |}.

(** The callback handed to [subscribeToTasks]. *)
Definition on_tasks (updatedTasks : list Task) (now : Z) (s : State) : State :=
  {| tasks := updatedTasks;
     loading := false;
     lastSync := Some now;
     error := error s;
     unsubscribeRef := unsubscribeRef s |}.

(** [subscribeToTasks((updatedTasks) => { ... })]: no second argument. *)
Definition observer : Observer State := subscribeToTasks on_tasks None.

(** The second effect: [setLoading(true); setError(null)] and then
    [setupSubscription()]. *)
Definition setupSubscription (now : Z)
    (reply : Result (list QueryDocumentSnapshot)) (now' : Z)
    (st : Cache * State) : Cache * State :=
  let s := st.2 in
  match fetchTasks None now reply now' st.1 with
  | (Ok initialTasks, c) =>
      (c, {| tasks := initialTasks;
             loading := false;
             lastSync := Some now';
             error := None;
             unsubscribeRef := true |})
  | (Throw err, c) =>
      (c, {| tasks := tasks s;
             loading := false;
             lastSync := lastSync s;
             error := Some "Failed to load tasks";
             unsubscribeRef := unsubscribeRef s |})
  end.

(** The cleanup of the second effect. *)
Definition cleanup (s : State) : State :=
  {| tasks := tasks s;
     loading := loading s;
     lastSync := lastSync s;
     error := error s;
     unsubscribeRef := false |}.

(** What the store sends to a listener. *)
Inductive SnapshotEvent : Type :=
| Push (now : Z) (docs : list QueryDocumentSnapshot)
| Fail (err : JsError).

(** A stand-in for the dispatch of the store SDK, which is not part of
    this code: one call of the handlers of [observer] for an event of the
    listener, made while the hook holds the handle of the subscription.
    [deliver] admits every event in every order.  The SDK sends some of
    these sequences only (no handler is called once an error has been
    reported), so that what holds for every sequence of [deliver] holds
    for the sequences of the SDK; nothing here says that an event is sent. *)
Definition deliver (ev : SnapshotEvent) (st : Cache * State) : Cache * State :=
  if unsubscribeRef st.2 then
    match ev with
    | Push now docs => next observer now docs st
    | Fail err => Firebase.error observer err st
    end
  else st.

(** [updateStatus(taskId, newStatus)] *)
Definition updateStatus (taskId : string) (newStatus : TaskStatus) (now : Z)
    (net : option JsError) (now' : Z) (w : World) : Result unit * World :=
  match updateTaskStatus taskId newStatus None now net now' w with
  | (Ok u, w') => (Ok u, w')
  | (Throw err, w') =>
      (Throw (Error "Failed to update status. Please try again."), w')
  end.

(** The first effect, [init()]: the probe, then [initializeTasks()] when it
    found nothing.  [mounted] is the flag as read after the probe, [mounted']
    as read in the [catch] block. *)
Definition init (mounted mounted' : bool) (now : Z)
    (probe_net probe_net' commit_net : option JsError)
    (st : World * State) : World * State :=
  let failed (s : State) :=
    {| tasks := tasks s;
       loading := loading s;
       lastSync := lastSync s;
       error := Some "Failed to initialize database";
       unsubscribeRef := unsubscribeRef s |} in
  match checkTasksExist probe_net (remote st.1) with
  | Ok found =>
      if negb found && mounted then
        match initializeTasks false now probe_net' commit_net st.1 with
        | (Ok _, w) => (w, st.2)
        | (Throw err, w) => (w, if mounted' then failed st.2 else st.2)
        end
      else st
  | Throw err => (st.1, if mounted' then failed st.2 else st.2)
  end.

(** [refresh()] *)
Definition refresh (now : Z) (reply : Result (list QueryDocumentSnapshot))
    (now' : Z) (st : Cache * State) : Cache * State :=
  let s := st.2 in
  match fetchTasks None now reply now' st.1 with
  | (Ok freshTasks, c) =>
      (c, {| tasks := freshTasks;
             loading := false;
             lastSync := Some now';
             error := error s;
             unsubscribeRef := unsubscribeRef s |})
  | (Throw err, c) =>
      (c, {| tasks := tasks s;
             loading := false;
             lastSync := lastSync s;
             error := Some "Failed to refresh tasks";
             unsubscribeRef := unsubscribeRef s |})
  end.

End RealtimeTasks.

(** *** useTaskFilter *)

Module TaskFilter.

(** [Task['status'] | 'all'] *)
Inductive StatusFilter : Type :=
| all
| only (s : TaskStatus).

(** What the debounce timer stores: [searchQuery.toLowerCase().trim()]. *)
Definition debounced (searchQuery : string) : string :=
  trim (toLowerCase searchQuery).

Definition is_empty (s : string) : bool :=
  match s with EmptyString => true | _ => false end.

Definition matchesStatus (filterStatus : StatusFilter) (task : Task) : bool :=
  match filterStatus with
  | all => true
  | only s => bool_decide (status task = s)
  end.

Definition matchesSearch (searchLower : string) (task : Task) : bool :=
  includes (toLowerCase (title task)) searchLower
  || includes (toLowerCase (module task)) searchLower
  || existsb (fun tag => includes (toLowerCase tag) searchLower) (tags task).

(** The [useMemo] that computes [filteredTasks]. *)
Definition filteredTasks (tasks : list Task) (filterStatus : StatusFilter)
    (debouncedQuery : string) : list Task :=
  if is_empty debouncedQuery
     && match filterStatus with all => true | only _ => false end
  then tasks
  else
    List.filter (fun task =>
      if is_empty debouncedQuery then matchesStatus filterStatus task
      else matchesStatus filterStatus task && matchesSearch debouncedQuery task)
      tasks.

(** The state cells of the hook. *)
Record State : Type := {
  filterStatus : StatusFilter;
  searchQuery : string;
  debouncedQuery : string
}.

Definition initial : State :=
  {| filterStatus := all; searchQuery := ""; debouncedQuery := "" |}.

Definition setFilterStatus (f : StatusFilter) (s : State) : State :=
  {| filterStatus := f;
     searchQuery := searchQuery s;
     debouncedQuery := debouncedQuery s |}.

Definition setSearchQuery (q : string) (s : State) : State :=
  {| filterStatus := filterStatus s;
     searchQuery := q;
     debouncedQuery := debouncedQuery s |}.

(** The 300 ms timer of the debounce effect runs. *)
Definition debounce_fires (s : State) : State :=
  {| filterStatus := filterStatus s;
     searchQuery := searchQuery s;
     debouncedQuery := debounced (searchQuery s) |}.

Definition clearFilters (s : State) : State :=
  {| filterStatus := all;
     searchQuery := "";
     debouncedQuery := debouncedQuery s |}.

(** The list the hook returns in state [s]. *)
Definition view (tasks : list Task) (s : State) : list Task :=
  filteredTasks tasks (filterStatus s) (debouncedQuery s).

End TaskFilter.

End Dashboard.

(* ===================================================================== *)
(** ** components/DashboardMain.tsx: figures derived for display *)
(* ===================================================================== *)

Module DashboardMain.
Import Js Firebase Dashboard.

(** An entry of [PHASES], with the two ends of its [range]. *)
Record Phase : Type := {
  name : string;
  range_from : Z;
  range_to : Z;
  color : string;
  desc : string
}.

Definition PHASES : list Phase :=
  [ {| name := "Phase 1"; range_from := 1; range_to := 6;
       color := "emerald"; desc := "Core Platform" |};
    {| name := "Phase 2"; range_from := 7; range_to := 10;
       color := "amber"; desc := "Hypemode" |};
    {| name := "Phase 3"; range_from := 11; range_to := 14;
       color := "indigo"; desc := "Seller" |};
    {| name := "Phase 4"; range_from := 15; range_to := 17;
       color := "violet"; desc := "Buyer" |};
    {| name := "Phase 5-6"; range_from := 18; range_to := 20;
       color := "rose"; desc := "Advanced" |} ].

Record PhaseProgress : Type := {
  phase : Phase;
  total : Z;
  completed_count : Z;
  progress : Q
}.

(** [tasks.filter(t => t.day >= phase.range[0] && t.day <= phase.range[1])] *)
Definition phaseTasks (p : Phase) (tasks : list Task) : list Task :=
  List.filter (fun t => (range_from p <=? day t) && (day t <=? range_to p)) tasks.

(** The [useMemo] that computes [phaseProgress]; the quotient is exact. *)
Definition phaseProgress (tasks : list Task) : list PhaseProgress :=
  List.map (fun p =>
    let inPhase := phaseTasks p tasks in
    let done := count_status completed inPhase in
    {| phase := p;
       total := Z.of_nat (length inPhase);
       completed_count := done;
       progress :=
         if 0 <? Z.of_nat (length inPhase)
         then (Qmake done (Z.to_pos (Z.of_nat (length inPhase))) * 100)%Q
         else 0%Q |}) PHASES.

(** The [percentage] of [ProgressBar]:
    [total > 0 ? Math.min(100, Math.round((current / total) * 100)) : 0]. *)
Definition percentage (current total : Z) : Z :=
  if 0 <? total then Z.min 100 (round_percent current total) else 0.

End DashboardMain.

(* ===================================================================== *)
(** ** Notions of the specification *)
(* ===================================================================== *)

Module Spec.
Import Js Firebase Dashboard.

(** The normaliser as the specification words it: the store timestamp gives
    its conversion, a date gives itself, an object with a working [toDate]
    gives what that returns, anything else gives the current instant. *)
Definition normalised (now : Z) (v : JsValue) : JsValue :=
  match v with
  | JsTimestamp t => JsDate (Timestamp_toDate t)
  | JsDate ms => JsDate ms
  | JsObject props =>
      match get_prop "toDate" props with
      | Some (JsFunction (Ok converted)) => converted
      | _ => JsDate now
      end
  | _ => JsDate now
  end.

Definition is_date (v : JsValue) : Prop := exists ms, v = JsDate ms.

(** The member [toDate], where the probe finds one, is a function that
    returns a date. *)
Definition toDate_well_behaved (v : JsValue) : Prop :=
  has_toDate v = true -> exists ms, call_toDate v = Ok (JsDate ms).


(** [sub] occurs in [s] as a contiguous block. *)
Definition Substring (sub s : string) : Prop :=
  exists pre post, s = pre +:+ sub +:+ post.

(** [out] is the ordered subsequence of [l] that holds exactly the elements
    satisfying [P]. *)
Inductive Selects {A : Type} (P : A -> Prop) : list A -> list A -> Prop :=
| Selects_nil : Selects P [] []
| Selects_keep (x : A) (l out : list A) :
    P x -> Selects P l out -> Selects P (x :: l) (x :: out)
| Selects_skip (x : A) (l out : list A) :
    ~ P x -> Selects P l out -> Selects P (x :: l) out.

(** The status filter accepts the task: ['all'] accepts every status. *)
Definition status_matches (filterStatus : TaskFilter.StatusFilter) (t : Task)
  : Prop :=
  filterStatus = TaskFilter.all \/ filterStatus = TaskFilter.only (status t).

(** The lowercased title, module or some tag contains [q]. *)
Definition query_matches (q : string) (t : Task) : Prop :=
  Substring q (toLowerCase (title t))
  \/ Substring q (toLowerCase (module t))
  \/ exists tag, tag ∈ tags t /\ Substring q (toLowerCase tag).

(** The task passes the status filter and, when the query is not empty,
    matches the lowercased trimmed query. *)
Definition task_matches (filterStatus : TaskFilter.StatusFilter)
    (searchQuery : string) (t : Task) : Prop :=
  status_matches filterStatus t
  /\ (searchQuery <> "" -> query_matches (trim (toLowerCase searchQuery)) t).

(** The class of an error as a caller can tell it: the store's code. *)
Definition not_found_class (e : JsError) : Prop :=
  e = FirestoreError "not-found".

(** *** The scenario of the specification: a seeded collection, loaded *)

Definition empty_world : World :=
  {| remote := ∅; local := {| tasksCache := None; lastCacheTime := 0 |} |}.

(** The collection after a first [initializeTasks()] at [now]. *)
Definition seeded_world (now : Z) : World :=
  (initializeTasks false now None None empty_world).2.

(** What the ordered query returns on that collection: the seed records
    under their ids, stamped by the batch. *)
Definition seed_snapshot (now : Z) : list QueryDocumentSnapshot :=
  imap (fun index task =>
          {| doc_id := task_doc_id index;
             data_id := None;
             doc_data :=
               {| Data.day := Data.day task;
                  Data.title := Data.title task;
                  Data.module := Data.module task;
                  Data.status := Data.status task;
                  Data.priority := Data.priority task;
                  Data.category := Data.category task;
                  Data.description := Data.description task;
                  Data.findings := Data.findings task;
                  Data.assignedTo := Data.assignedTo task;
                  Data.estimatedHours := Data.estimatedHours task;
                  Data.actualHours := Data.actualHours task;
                  Data.lastUpdated := JsTimestamp (Timestamp_now now);
                  Data.tags := Data.tags task |} |})
       (initialTasks now).

(** The seeded world once [fetchTasks()] has filled the cache. *)
Definition loaded_world (now : Z) : World :=
  {| remote := remote (seeded_world now);
     local := (fetchTasks None now (Ok (seed_snapshot now)) now
                 (local (seeded_world now))).2 |}.

(** The loaded world after [updateTaskStatus('task_007', 'completed')]. *)
Definition updated_world (now : Z) : World :=
  (updateTaskStatus "task_007" completed None now None now (loaded_world now)).2.

(** The controller once its second effect has run on the seeded
    collection: list loaded, subscription open. *)
Definition subscribed_controller (now : Z) : Cache * RealtimeTasks.State :=
  RealtimeTasks.setupSubscription now (Ok (seed_snapshot now)) now
    (local (seeded_world now), RealtimeTasks.initial).

(** A document of the collection whose [lastUpdated] is an object with a
    [toDate] member that is no function. *)
Definition broken_document : QueryDocumentSnapshot :=
  {| doc_id := "task_021";
     data_id := None;
     doc_data :=
       {| Data.day := 21;
          Data.title := "Imported";
          Data.module := "Import";
          Data.status := pending;
          Data.priority := low;
          Data.category := Cat_Advanced;
          Data.description := "Written by another client.";
          Data.findings := None;
          Data.assignedTo := None;
          Data.estimatedHours := 1;
          Data.actualHours := None;
          Data.lastUpdated := JsObject [("toDate", JsNumber 5)];
          Data.tags := [] |} |}.

(** An [updates] object with no field, with the status only, and with its
    [lastUpdated] field replaced. *)
Definition no_updates : Partial.t :=
  {| Partial.day := None; Partial.title := None; Partial.module := None;
     Partial.status := None; Partial.priority := None;
     Partial.category := None; Partial.description := None;
     Partial.findings := None; Partial.assignedTo := None;
     Partial.estimatedHours := None; Partial.actualHours := None;
     Partial.lastUpdated := None; Partial.tags := None |}.

Definition status_only (s : TaskStatus) : Partial.t :=
  {| Partial.day := None; Partial.title := None; Partial.module := None;
     Partial.status := Some s; Partial.priority := None;
     Partial.category := None; Partial.description := None;
     Partial.findings := None; Partial.assignedTo := None;
     Partial.estimatedHours := None; Partial.actualHours := None;
     Partial.lastUpdated := None; Partial.tags := None |}.

Definition with_lastUpdated (v : option JsValue) (u : Partial.t) : Partial.t :=
  {| Partial.day := Partial.day u; Partial.title := Partial.title u;
     Partial.module := Partial.module u; Partial.status := Partial.status u;
     Partial.priority := Partial.priority u;
     Partial.category := Partial.category u;
     Partial.description := Partial.description u;
     Partial.findings := Partial.findings u;
     Partial.assignedTo := Partial.assignedTo u;
     Partial.estimatedHours := Partial.estimatedHours u;
     Partial.actualHours := Partial.actualHours u;
     Partial.lastUpdated := v; Partial.tags := Partial.tags u |}.

(** The fields that [updateTaskStatus] may write. *)
Definition status_update_keys : list string :=
  ["status"; "lastUpdated"; "actualHours"; "findings"].

(** What happens to a mounted controller after its effects have run: a
    manual refresh, an event of the subscription, the cleanup. *)
Inductive ControllerOp : Type :=
| Op_refresh (now : Z) (reply : Result (list QueryDocumentSnapshot)) (now' : Z)
| Op_deliver (ev : RealtimeTasks.SnapshotEvent)
| Op_cleanup.

Definition run_op (st : Cache * RealtimeTasks.State) (op : ControllerOp)
  : Cache * RealtimeTasks.State :=
  match op with
  | Op_refresh now reply now' => RealtimeTasks.refresh now reply now' st
  | Op_deliver ev => RealtimeTasks.deliver ev st
  | Op_cleanup => (st.1, RealtimeTasks.cleanup st.2)
  end.

(** The subscribed controller after an [init()] whose seeding failed. *)
Definition controller_with_error (now : Z) : Cache * RealtimeTasks.State :=
  let st := subscribed_controller now in
  (st.1,
   (RealtimeTasks.init true true now
      (Some (FirestoreError "unavailable")) (Some (FirestoreError "unavailable"))
      (Some (FirestoreError "unavailable"))
      (seeded_world now, st.2)).2).

(** The ids of the cached tasks, in order. *)
Definition cache_ids (c : Cache) : option (list string) :=
  match tasksCache c with
  | Some cached => Some (List.map id cached)
  | None => None
  end.


(** Guessing twice at [guess.1.1], then reloading the page. *)
Definition guess_twice_and_reload (s : TesterAuth.State)
    (guess : Z * string * string) : TesterAuth.State :=
  let now := guess.1.1 in
  TesterAuth.reload now
    (TesterAuth.login now guess.2 (TesterAuth.login now guess.1.2 s).2).2.


(** A query made of white space only. *)
Fixpoint blank (s : string) : bool :=
  match s with
  | EmptyString => true
  | String c rest => is_space c && blank rest
  end.

(** The sum of the [total]s of a phase progress list. *)
Definition sum_totals (l : list DashboardMain.PhaseProgress) : Z :=
  foldr (fun p acc => DashboardMain.total p + acc) 0 l.

(** The task's day lies in the range covered by the phases. *)
Definition in_phases (t : Task) : bool := (1 <=? day t) && (day t <=? 20).

(** A document whose data hold an [id] field of their own. *)
Definition aliased_document : QueryDocumentSnapshot :=
  {| doc_id := "doc_a";
     data_id := Some "inner";
     doc_data :=
       {| Data.day := 22;
          Data.title := "Copied";
          Data.module := "Import";
          Data.status := pending;
          Data.priority := low;
          Data.category := Cat_Advanced;
          Data.description := "Copied with its id among the fields.";
          Data.findings := None;
          Data.assignedTo := None;
          Data.estimatedHours := 1;
          Data.actualHours := None;
          Data.lastUpdated := JsTimestamp (Timestamp_now 1000);
          Data.tags := [] |} |}.


(** [r] is an integer nearest to the exact value of [100 * a / b]. *)
Definition nearest_percent (a b r : Z) : bool :=
  (200 * a - b <=? 2 * b * r) && (2 * b * r <=? 200 * a + b).

(** The rounded percentage is a nearest integer for every numerator in
    [0..n] and every denominator in [1..n]. *)
Definition percent_table (n : Z) : bool :=
  forallb (fun b =>
             forallb (fun a => nearest_percent a b (round_percent a b))
               (seqZ 0 (n + 1)))
    (seqZ 1 n).
End Spec.

(* ===================================================================== *)
(** ** Properties *)
(* ===================================================================== *)

Import Js Firebase Dashboard Spec.

(** *** Statistics *)

Lemma count_status_bounds (s : TaskStatus) (tasks : list Task) :
  0 <= count_status s tasks <= Z.of_nat (length tasks).
Proof.
  unfold count_status. split; [lia |].
  apply inj_le. induction tasks as [| t tasks IH]; simpl; [lia |].
  destruct (bool_decide (status t = s)); simpl; lia.
Qed.

(** C10: on the empty task list [calculateStats] takes the guarded branch of
    the completion rate and returns 0 there, and the task count, the three
    status counts and the hour total are all 0 (so is the velocity). *)
Theorem calculateStats_empty :
  calculateStats [] =
    {| totalTasks := 0; completedTasks := 0; inProgressTasks := 0;
       blockedTasks := 0; completionRate := 0; totalHours := 0;
       velocity := Qmake 0 6 |}
  /\ (velocity (calculateStats []) == 0)%Q.
Proof. split; reflexivity. Qed.

(** *** The existence probe *)

Lemma checkTasksExist_ok (store : Store) :
  checkTasksExist None store = Ok (negb (bool_decide (store = ∅))).
Proof.
  unfold checkTasksExist, getDocs_limit1; simpl.
  case_bool_decide as Hstore.
  - subst. by rewrite map_to_list_empty.
  - destruct (map_to_list store) as [| kv rest] eqn:Hlist; [| done].
    by apply map_to_list_empty_iff in Hlist.
Qed.

(** C9: [checkTasksExist] returns a boolean for every reply of the store and
    never throws; a store error during the probe is answered [false], the
    answer an empty collection gets, and [initializeTasks(false)] then goes
    on to commit the seed batch over whatever the collection holds. *)
Theorem checkTasksExist_total :
  (forall (net : option JsError) (store : Store),
      exists b : bool, checkTasksExist net store = Ok b)
  /\ (forall (e : JsError) (store : Store),
         checkTasksExist (Some e) store = Ok false
         /\ checkTasksExist (Some e) store = checkTasksExist None ∅)
  /\ (forall (store : Store),
         checkTasksExist None store = Ok true <-> store <> ∅)
  /\ (forall (e : JsError) (now : Z) (w : World),
         initializeTasks false now (Some e) None w =
           (Ok tt,
            {| remote := foldl (fun st op => <[op.1 := op.2]> st) (remote w)
                               (seed_batch now);
               local := {| tasksCache := None;
                           lastCacheTime := lastCacheTime (local w) |} |})).
Proof.
  split; [| split; [| split]].
  - intros net store. destruct net as [e |].
    + exists false. reflexivity.
    + rewrite checkTasksExist_ok. eauto.
  - intros e store. split; [reflexivity |].
    rewrite checkTasksExist_ok. by rewrite bool_decide_eq_true_2.
  - intros store. rewrite checkTasksExist_ok. split.
    + intros [= H] ->. by rewrite bool_decide_eq_true_2 in H.
    + intros H. by rewrite bool_decide_eq_false_2.
  - intros e now w. reflexivity.
Qed.

(** *** The timestamp normaliser *)

Lemma convertTimestamp_not_probed (now : Z) (v : JsValue) :
  has_toDate v = false ->
  convertTimestamp now v = Ok (normalised now v) /\ is_date (normalised now v).
Proof.
  intros Hprobe. unfold is_date.
  destruct v as [| | b | n | s | t | ms | items | call | props];
    simpl in *; rewrite ?andb_false_r; eauto.
  apply bool_decide_eq_false in Hprobe.
  destruct (get_prop "toDate" props) as [member |] eqn:Hmember.
  - exfalso. apply Hprobe. eauto.
  - eauto.
Qed.

(** [convertTimestamp] returns a date, and the one its four cases name, on
    every input whose [toDate] member (if the probe finds one on an object
    that is neither a store timestamp nor a date) is a function returning a
    date. *)
Lemma convertTimestamp_total_on_well_behaved (now : Z) (v : JsValue) :
  toDate_well_behaved v ->
  convertTimestamp now v = Ok (normalised now v)
  /\ is_date (normalised now v)
  /\ (forall t, v = JsTimestamp t ->
        normalised now v = JsDate (Timestamp_toDate t))
  /\ (forall ms, v = JsDate ms -> normalised now v = JsDate ms)
  /\ (has_toDate v = true -> Ok (normalised now v) = call_toDate v)
  /\ ((forall t, v <> JsTimestamp t) -> (forall ms, v <> JsDate ms) ->
      has_toDate v = false -> normalised now v = JsDate now).
Proof.
  intros Hwell.
  destruct (has_toDate v) eqn:Hprobe.
  - destruct (Hwell Hprobe) as [ms Hcall].
    destruct v as [| | b | n | s | t | d | items | call | props];
      try discriminate Hprobe.
    unfold convertTimestamp, normalised, call_toDate, is_date in *.
    rewrite Hprobe. simpl.
    destruct (get_prop "toDate" props) as [[| | | | | | | | call |] |];
      try discriminate Hcall.
    subst call. repeat split; eauto; try discriminate.
  - destruct (convertTimestamp_not_probed now v Hprobe) as [Heq Hdate].
    repeat split; try done.
    + intros t ->. reflexivity.
    + intros ms ->. reflexivity.
    + intros Hts Hd _.
      destruct v as [| | b | n | s | t | d | items | call | props];
        try reflexivity.
      * by destruct (Hts t).
      * by destruct (Hd d).
      * simpl in Hprobe |- *. apply bool_decide_eq_false in Hprobe.
        destruct (get_prop "toDate" props) as [member |]; [| done].
        exfalso. apply Hprobe. eauto.
Qed.

Lemma convertTimestamp_total_on_well_behaved_witness :
  toDate_well_behaved (JsObject [("toDate", JsFunction (Ok (JsDate 7)))])
  /\ convertTimestamp 42 (JsObject [("toDate", JsFunction (Ok (JsDate 7)))])
     = Ok (JsDate 7).
Proof.
  assert (Hwell :
    toDate_well_behaved (JsObject [("toDate", JsFunction (Ok (JsDate 7)))])).
  { intros _. exists 7. reflexivity. }
  split; [exact Hwell |].
  exact (proj1 (convertTimestamp_total_on_well_behaved 42 _ Hwell)).
Defined.

Lemma convertTimestamp_member (now : Z) (props : list (string * JsValue))
    (member : JsValue) :
  get_prop "toDate" props = Some member ->
  convertTimestamp now (JsObject props) = call_toDate (JsObject props).
Proof.
  intros Hmember. unfold convertTimestamp, has_toDate. rewrite Hmember.
  by rewrite bool_decide_eq_true_2 by eauto.
Qed.

(** C6, as the code has it.  For every input: a store timestamp gives its
    conversion and a date gives itself; on any other object that has a
    [toDate] member the member is called unguarded, so that a member that
    is no function throws a [TypeError], and a member that is a function
    decides the outcome (what it returns is returned, date or not, and what
    it throws is thrown); every remaining input gives the current instant.
    Hence the result is a date, the one the four cases name, exactly on the
    inputs whose [toDate] member, if the probe finds one, is a function
    returning a date. *)
Theorem convertTimestamp_cases (now : Z) :
  (forall t, convertTimestamp now (JsTimestamp t)
             = Ok (JsDate (Timestamp_toDate t)))
  /\ (forall ms, convertTimestamp now (JsDate ms) = Ok (JsDate ms))
  /\ (forall props call,
        get_prop "toDate" props = Some (JsFunction call) ->
        convertTimestamp now (JsObject props) = call)
  /\ (forall props member,
        get_prop "toDate" props = Some member ->
        (forall call, member <> JsFunction call) ->
        convertTimestamp now (JsObject props)
        = Throw (TypeError "timestamp.toDate is not a function"))
  /\ (forall v,
        (forall t, v <> JsTimestamp t) -> (forall ms, v <> JsDate ms) ->
        has_toDate v = false ->
        convertTimestamp now v = Ok (JsDate now))
  /\ (forall v,
        toDate_well_behaved v <->
        exists ms, convertTimestamp now v = Ok (JsDate ms))
  /\ (forall v,
        toDate_well_behaved v ->
        convertTimestamp now v = Ok (normalised now v)).
Proof.
  split; [done |]. split; [done |]. split; [| split; [| split; [| split]]].
  - intros props call Hmember.
    rewrite (convertTimestamp_member now props _ Hmember).
    unfold call_toDate. by rewrite Hmember.
  - intros props member Hmember Hnot.
    rewrite (convertTimestamp_member now props _ Hmember).
    unfold call_toDate. rewrite Hmember.
    destruct member; try done. by destruct (Hnot call).
  - intros v Hts Hd Hprobe.
    destruct (convertTimestamp_not_probed now v Hprobe) as [-> _].
    f_equal.
    destruct v as [| | b | n | s | t | d | items | call | props];
      try reflexivity.
    + by destruct (Hts t).
    + by destruct (Hd d).
    + simpl in Hprobe |- *. apply bool_decide_eq_false in Hprobe.
      destruct (get_prop "toDate" props) as [member |]; [| done].
      exfalso. apply Hprobe. eauto.
  - intros v. split.
    + intros Hwell.
      destruct (convertTimestamp_total_on_well_behaved now v Hwell)
        as (Heq & [ms Hms] & _).
      exists ms. by rewrite Heq, Hms.
    + intros [ms Hms] Hprobe.
      destruct v as [| | b | n | s | t | d | items | call | props];
        try discriminate Hprobe.
      simpl in Hprobe. apply bool_decide_eq_true in Hprobe as [member Hmember].
      exists ms.
      by rewrite <- (convertTimestamp_member now props _ Hmember).
  - intros v Hwell.
    by destruct (convertTimestamp_total_on_well_behaved now v Hwell).
Qed.

Lemma convertTimestamp_cases_witness :
  convertTimestamp 42 (JsObject [("toDate", JsFunction (Ok (JsDate 7)))])
  = Ok (JsDate 7)
  /\ convertTimestamp 42
       (JsObject [("toDate", JsFunction (Throw (Error "no date")))])
     = Throw (Error "no date")
  /\ convertTimestamp 42 (JsObject [("toDate", JsString "soon")])
     = Throw (TypeError "timestamp.toDate is not a function")
  /\ convertTimestamp 42 (JsObject [("valueOf", JsNumber 5)]) = Ok (JsDate 42).
Proof.
  destruct (convertTimestamp_cases 42)
    as (_ & _ & Hcalled & Hnot & Hrest & _).
  split; [by apply Hcalled |]. split; [by apply Hcalled |].
  split.
  - apply (Hnot _ (JsString "soon")); [reflexivity | discriminate].
  - apply Hrest; [discriminate | discriminate | reflexivity].
Defined.

(** C6 as stated fails: an object whose [toDate] member is not a function
    passes the probe, and the call throws. *)
Lemma convertTimestamp_throws :
  ~ (forall (now : Z) (v : JsValue),
       exists ms, convertTimestamp now v = Ok (JsDate ms))
  /\ convertTimestamp 0 (JsObject [("toDate", JsNumber 5)])
     = Throw (TypeError "timestamp.toDate is not a function").
Proof.
  split; [| reflexivity].
  intros Hall.
  destruct (Hall 0 (JsObject [("toDate", JsNumber 5)])) as [ms Hms].
  discriminate Hms.
Qed.

(** A [toDate] that returns [null] makes the normaliser return [null]. *)
Lemma convertTimestamp_returns_null :
  convertTimestamp 0 (JsObject [("toDate", JsFunction (Ok JsNull))]) = Ok JsNull.
Proof. reflexivity. Qed.

(** *** The access gate *)

Import TesterAuth.

Lemma advance_no_timers (now : Z) (s : State) :
  timers s = [] -> advance now s = s.
Proof. destruct s; simpl; intros ->; reflexivity. Qed.

(** A wrong credential on an unlocked gate with no timer pending is refused
    and counted; the gate locks when the count reaches [MAX_ATTEMPTS]. *)
Lemma login_wrong_step (now : Z) (p : string) (s : State) (n : Z) :
  isLocked s = false -> attempts s = n -> timers s = [] ->
  p <> TESTER_PASSWORD ->
  let r := login now p (advance now s) in
  r.1 = false
  /\ attempts r.2 = n + 1
  /\ isAuthenticated r.2 = isAuthenticated s
  /\ isLocked r.2 = (MAX_ATTEMPTS <=? n + 1)
  /\ timers r.2 =
       (if MAX_ATTEMPTS <=? n + 1 then [now + LOCKOUT_DURATION] else []).
Proof.
  intros Hunlocked Hcount Htimers Hwrong. apply String.eqb_neq in Hwrong.
  rewrite advance_no_timers by assumption.
  unfold login. rewrite Hunlocked, Hwrong, Hcount, Htimers. simpl negb. cbv iota.
  destruct (MAX_ATTEMPTS <=? n + 1); simpl; auto.
Qed.

(** While the gate is locked every credential is refused with the locked
    message, and nothing else changes. *)
Lemma login_locked (now : Z) (p : string) (s : State) :
  isLocked s = true ->
  let r := login now p s in
  r.1 = false
  /\ error r.2 = "Account temporarily locked. Please try again later."
  /\ attempts r.2 = attempts s
  /\ isAuthenticated r.2 = isAuthenticated s
  /\ isLocked r.2 = true.
Proof.
  intros Hlocked. unfold login. rewrite Hlocked. simpl. auto.
Qed.

(** Three consecutive wrong credentials on a fresh gate, each call acting
    on the state the previous one left, lock it with the counter at 3; a
    fourth call within the lockout window is refused with the locked message
    whatever the credential (the right one included), leaves the counter at
    3 and does not authenticate.  On an unlocked gate the right credential
    authenticates and sets the counter to zero. *)
Lemma login_lockout (s0 : State) (t1 t2 t3 t4 : Z) (p1 p2 p3 p4 : string) :
  isLocked s0 = false -> attempts s0 = 0 -> timers s0 = [] ->
  p1 <> TESTER_PASSWORD -> p2 <> TESTER_PASSWORD -> p3 <> TESTER_PASSWORD ->
  t4 < t3 + LOCKOUT_DURATION ->
  let r1 := login t1 p1 (advance t1 s0) in
  let r2 := login t2 p2 (advance t2 r1.2) in
  let r3 := login t3 p3 (advance t3 r2.2) in
  let r4 := login t4 p4 (advance t4 r3.2) in
  (r1.1 = false /\ r2.1 = false /\ r3.1 = false)
  /\ (isLocked r3.2 = true /\ attempts r3.2 = 3)
  /\ (r4.1 = false
      /\ error r4.2 = "Account temporarily locked. Please try again later."
      /\ attempts r4.2 = 3
      /\ isAuthenticated r4.2 = isAuthenticated s0
      /\ isLocked r4.2 = true)
  /\ (forall (s : State) (now : Z),
        isLocked s = false ->
        let r := login now TESTER_PASSWORD s in
        r.1 = true /\ attempts r.2 = 0 /\ isAuthenticated r.2 = true).
Proof.
  intros Hunlocked Hzero Htimers Hp1 Hp2 Hp3 Hwindow r1 r2 r3 r4.
  assert (H1 : r1.1 = false /\ attempts r1.2 = 1
               /\ isAuthenticated r1.2 = isAuthenticated s0
               /\ isLocked r1.2 = false /\ timers r1.2 = [])
    by (apply (login_wrong_step t1 p1 s0 0); assumption).
  destruct H1 as (Hr1 & Ha1 & Hi1 & Hl1 & Ht1).
  assert (H2 : r2.1 = false /\ attempts r2.2 = 2
               /\ isAuthenticated r2.2 = isAuthenticated r1.2
               /\ isLocked r2.2 = false /\ timers r2.2 = [])
    by (apply (login_wrong_step t2 p2 r1.2 1); assumption).
  destruct H2 as (Hr2 & Ha2 & Hi2 & Hl2 & Ht2).
  assert (H3 : r3.1 = false /\ attempts r3.2 = 3
               /\ isAuthenticated r3.2 = isAuthenticated r2.2
               /\ isLocked r3.2 = true
               /\ timers r3.2 = [t3 + LOCKOUT_DURATION])
    by (apply (login_wrong_step t3 p3 r2.2 2); assumption).
  destruct H3 as (Hr3 & Ha3 & Hi3 & Hl3 & Ht3).
  assert (Hkept : advance t4 r3.2 = r3.2).
  { unfold advance. rewrite Ht3. simpl.
    destruct (Z.leb_spec (t3 + LOCKOUT_DURATION) t4) as [Hdue | _]; [lia |].
    simpl. rewrite <- Ht3. by destruct r3.2. }
  assert (H4 : r4.1 = false
               /\ error r4.2
                  = "Account temporarily locked. Please try again later."
               /\ attempts r4.2 = attempts r3.2
               /\ isAuthenticated r4.2 = isAuthenticated r3.2
               /\ isLocked r4.2 = true).
  { subst r4. rewrite Hkept. by apply login_locked. }
  destruct H4 as (Hr4 & He4 & Ha4 & Hi4 & Hl4).
  repeat split; try assumption; try congruence.
  all: intros; unfold login; by rewrite H.
Qed.

Lemma login_lockout_witness :
  let s0 := mount 0 None None in
  let r1 := login 1000 "a" (advance 1000 s0) in
  let r2 := login 2000 "b" (advance 2000 r1.2) in
  let r3 := login 3000 "c" (advance 3000 r2.2) in
  let r4 := login 4000 TESTER_PASSWORD (advance 4000 r3.2) in
  isLocked r3.2 = true /\ r4.1 = false /\ attempts r4.2 = 3.
Proof.
  destruct (login_lockout (mount 0 None None) 1000 2000 3000 4000
              "a" "b" "c" TESTER_PASSWORD)
    as (_ & (Hlocked & _) & (Hrefused & _ & Hcount & _) & _);
    [reflexivity | reflexivity | reflexivity
     | discriminate | discriminate | discriminate | reflexivity |].
  auto.
Defined.





(** The timer that ends the lockout clears the lock only: the counter keeps
    its value, so the next wrong credential takes it past [MAX_ATTEMPTS] and
    locks the gate again. *)
Lemma login_after_expiry (s : State) (now : Z) (p : string) :
  isLocked s = false -> timers s = [] -> attempts s = MAX_ATTEMPTS ->
  p <> TESTER_PASSWORD ->
  attempts (login now p (advance now s)).2 = MAX_ATTEMPTS + 1
  /\ isLocked (login now p (advance now s)).2 = true.
Proof.
  intros Hunlocked Htimers Hcount Hwrong.
  destruct (login_wrong_step now p s MAX_ATTEMPTS Hunlocked Hcount Htimers
              Hwrong) as (_ & Hattempts & _ & Hlocked & _).
  by split.
Qed.

(** *** The filter projector *)

Import TaskFilter.

Lemma append_cons (c : ascii) (a b : string) :
  String c a +:+ b = String c (a +:+ b).
Proof. reflexivity. Qed.

Lemma prefix_spec (p s : string) :
  String.prefix p s = true <-> exists post, s = p +:+ post.
Proof.
  revert s. induction p as [| c p IH]; intros s.
  - split; [eauto | by destruct s].
  - destruct s as [| d s]; simpl.
    + split; [done | by intros [post [=]]].
    + destruct (ascii_dec c d) as [-> | Hne].
      * rewrite IH. split; intros [post Hpost]; exists post;
          rewrite append_cons in *; congruence.
      * split; [done | intros [post Hpost]; rewrite append_cons in Hpost; congruence].
Qed.

Lemma includes_spec (s sub : string) :
  includes s sub = true <-> Substring sub s.
Proof.
  unfold Substring. induction s as [| c s IH].
  - change (includes "" sub) with (String.prefix sub "" || false).
    rewrite orb_false_r, prefix_spec. split.
    + intros [post Hpost]. by exists "", post.
    + intros ([| d pre] & post & Hpre); [eauto | discriminate].
  - change (includes (String c s) sub)
      with (String.prefix sub (String c s) || includes s sub).
    rewrite orb_true_iff, prefix_spec, IH. split.
    + intros [[post Hpost] | (pre & post & Hpre)].
      * by exists "", post.
      * exists (String c pre), post. rewrite append_cons. congruence.
    + intros ([| d pre] & post & Hpre).
      * left. eauto.
      * right. rewrite append_cons in Hpre. injection Hpre as -> ->. eauto.
Qed.

Lemma Substring_empty (s : string) : Substring "" s.
Proof. by exists "", s. Qed.

Lemma is_empty_spec (s : string) : is_empty s = true <-> s = "".
Proof. by destruct s. Qed.

Lemma matchesStatus_spec (filterStatus : StatusFilter) (t : Task) :
  matchesStatus filterStatus t = true <-> status_matches filterStatus t.
Proof.
  unfold status_matches. destruct filterStatus as [| s]; simpl.
  - intuition.
  - rewrite bool_decide_eq_true. split.
    + intros <-. by right.
    + intros [| [=]]; done.
Qed.

Lemma matchesSearch_spec (q : string) (t : Task) :
  matchesSearch q t = true <-> query_matches q t.
Proof.
  unfold matchesSearch, query_matches.
  rewrite !orb_true_iff, !includes_spec, existsb_exists.
  setoid_rewrite includes_spec. setoid_rewrite list_elem_of_In.
  tauto.
Qed.

Lemma Selects_filter {A : Type} (P : A -> Prop) (f : A -> bool) (l : list A) :
  (forall x, f x = true <-> P x) -> Selects P l (List.filter f l).
Proof.
  intros Hf. induction l as [| x l IH]; simpl; [constructor |].
  destruct (f x) eqn:Hx.
  - apply Selects_keep; [by apply Hf | done].
  - apply Selects_skip; [| done]. rewrite <- Hf. congruence.
Qed.

Lemma Selects_all {A : Type} (P : A -> Prop) (l : list A) :
  (forall x, P x) -> Selects P l l.
Proof. intros HP. induction l; constructor; auto. Qed.

Lemma Selects_sublist {A : Type} (P : A -> Prop) (l out : list A) :
  Selects P l out -> sublist out l.
Proof. induction 1; by constructor. Qed.

Lemma Selects_elem_of {A : Type} (P : A -> Prop) (l out : list A) :
  Selects P l out -> forall x, x ∈ out <-> x ∈ l /\ P x.
Proof.
  induction 1 as [| y l out Hy Hsel IH | y l out Hy Hsel IH]; intros x.
  - rewrite elem_of_nil. tauto.
  - rewrite !elem_of_cons, IH. split; [| tauto].
    intros [-> | []]; tauto.
  - rewrite elem_of_cons, IH. split; [tauto |].
    intros [[-> |] HP]; tauto.
Qed.

(** A list has one selection. *)
Lemma Selects_unique {A : Type} (P : A -> Prop) (l out out' : list A) :
  Selects P l out -> Selects P l out' -> out = out'.
Proof.
  intros Hsel. revert out'.
  induction Hsel as [| y l out Hy Hsel IH | y l out Hy Hsel IH];
    intros out' Hsel'; inversion Hsel'; subst; try done.
  - f_equal. auto.
  - auto.
Qed.

(** C7: for every task list, status filter and free-text query, the
    filtered list is the ordered subsequence of the input that holds exactly
    the tasks whose status the filter accepts (['all'] accepts every status)
    and, when the query is not empty, whose lowercased title, module or some
    tag contains the lowercased trimmed query; the order of the input is
    kept. *)
Theorem filteredTasks_selects (tasks : list Task) (filterStatus : StatusFilter)
    (searchQuery : string) :
  let out := filteredTasks tasks filterStatus (debounced searchQuery) in
  Selects (task_matches filterStatus searchQuery) tasks out
  /\ sublist out tasks
  /\ (forall t, t ∈ out <-> t ∈ tasks /\ task_matches filterStatus searchQuery t).
Proof.
  intros out.
  assert (Hsel : Selects (task_matches filterStatus searchQuery) tasks out).
  { unfold out, filteredTasks, task_matches, debounced.
    destruct (is_empty (trim (toLowerCase searchQuery))) eqn:Hq; simpl.
    - apply is_empty_spec in Hq. rewrite Hq.
      destruct filterStatus as [| s].
      + apply Selects_all. intros t. split; [by left |].
        intros _. left. apply Substring_empty.
      + apply Selects_filter. intros t. rewrite matchesStatus_spec.
        split; [| tauto]. intros Hst. split; [done |].
        intros _. left. apply Substring_empty.
    - assert (Hraw : searchQuery <> "") by (by intros ->).
      assert (Hfilter : forall t,
        matchesStatus filterStatus t
        && matchesSearch (trim (toLowerCase searchQuery)) t = true
        <-> status_matches filterStatus t
            /\ (searchQuery <> "" ->
                query_matches (trim (toLowerCase searchQuery)) t)).
      { intros t. rewrite andb_true_iff, matchesStatus_spec, matchesSearch_spec.
        tauto. }
      destruct filterStatus; by apply Selects_filter. }
  split; [done |]. split.
  - by eapply Selects_sublist.
  - by eapply Selects_elem_of.
Qed.

(** *** The cache behind [fetchTasks] *)

(** With the default options a fresh cache is returned as it is. *)
Lemma fetchTasks_fresh (c : Cache) (cached : list Task) (now now' : Z)
    (reply : Result (list QueryDocumentSnapshot)) :
  tasksCache c = Some cached ->
  now - lastCacheTime c < CACHE_DURATION ->
  fetchTasks None now reply now' c = (Ok cached, c).
Proof.
  intros Hcache Hfresh. unfold fetchTasks, cache_fresh. simpl.
  rewrite Hcache. rewrite bool_decide_eq_true_2 by eauto.
  apply Z.ltb_lt in Hfresh. rewrite Hfresh. reflexivity.
Qed.

(** A failed live fetch falls back on the cache, whatever its age. *)
Lemma fetchTasks_fallback (options : option FetchOptions) (c : Cache)
    (cached : list Task) (now now' : Z) (e : JsError) :
  tasksCache c = Some cached ->
  cache_fresh (default true (options ≫= useCache)) now c = false ->
  fetchTasks options now (Throw e) now' c = (Ok cached, c).
Proof.
  intros Hcache Hstale. unfold fetchTasks. rewrite Hstale. simpl.
  by rewrite Hcache.
Qed.

(** With the default options the cached list is what a failed fetch
    returns, fresh or stale. *)
Lemma fetchTasks_default_fallback (c : Cache) (cached : list Task)
    (now now' : Z) (e : JsError) :
  tasksCache c = Some cached ->
  fetchTasks None now (Throw e) now' c = (Ok cached, c).
Proof.
  intros Hcache.
  destruct (cache_fresh true now c) eqn:Hfresh.
  - apply fetchTasks_fresh; [done |].
    unfold cache_fresh in Hfresh. apply andb_true_iff in Hfresh as [_ Hlt].
    by apply Z.ltb_lt.
  - by apply (fetchTasks_fallback None).
Qed.

(** A document whose time stamp cannot be converted fails the fetch in the
    same way. *)
Lemma fetchTasks_fallback_conversion (options : option FetchOptions) (c : Cache)
    (cached : list Task) (now now' : Z) (docs : list QueryDocumentSnapshot)
    (e : JsError) :
  tasksCache c = Some cached ->
  cache_fresh (default true (options ≫= useCache)) now c = false ->
  mapM (task_of_doc now') docs = Throw e ->
  fetchTasks options now (Ok docs) now' c = (Ok cached, c).
Proof.
  intros Hcache Hstale Hconv. unfold fetchTasks. rewrite Hstale. simpl.
  by rewrite Hconv, Hcache.
Qed.

(** C2: when the cache holds a list and the live list fetch fails,
    [fetchTasks] returns that list and leaves the cache as it was: under any
    options once the live fetch is attempted, and with the default options
    at any instant, so however old the cache is.  Without a cache the failure
    surfaces as an error. *)
Theorem fetchTasks_cache_fallback (c : Cache) (cached : list Task) (e : JsError) :
  tasksCache c = Some cached ->
  (forall (options : option FetchOptions) (now now' : Z),
      cache_fresh (default true (options ≫= useCache)) now c = false ->
      fetchTasks options now (Throw e) now' c = (Ok cached, c))
  /\ (forall (now now' : Z),
        fetchTasks None now (Throw e) now' c = (Ok cached, c))
  /\ (forall (options : option FetchOptions) (now now' : Z) (c0 : Cache),
        tasksCache c0 = None ->
        fetchTasks options now (Throw e) now' c0 =
          (Throw (Error "Failed to fetch tasks. Please check your connection."),
           c0)).
Proof.
  intros Hcache. split; [| split].
  - intros options now now' Hstale. by apply fetchTasks_fallback.
  - intros now now'. by apply fetchTasks_default_fallback.
  - intros options now now' c0 Hnone. unfold fetchTasks, cache_fresh.
    rewrite Hnone. rewrite bool_decide_eq_false_2 by (by intros [? ?]).
    rewrite andb_false_r. reflexivity.
Qed.

Lemma fetchTasks_cache_fallback_witness :
  let c := local (loaded_world 1000) in
  exists cached,
    tasksCache c = Some cached
    /\ length cached = 20%nat
    /\ fetchTasks None 99999999 (Throw (FirestoreError "unavailable")) 99999999 c
       = (Ok cached, c).
Proof.
  intros c.
  exists (default [] (tasksCache c)).
  assert (Hcache : tasksCache c = Some (default [] (tasksCache c)))
    by reflexivity.
  split; [exact Hcache |]. split; [reflexivity |].
  exact (proj1 (proj2 (fetchTasks_cache_fallback c _
                         (FirestoreError "unavailable") Hcache))
           99999999 99999999).
Defined.

(** *** The optimistic update *)

Lemma patch_task_fields (now' : Z) (newStatus : TaskStatus)
    (hours : option Z) (found : option string) (old : Task) :
  id (patch_task now' newStatus hours found old) = id old
  /\ status (patch_task now' newStatus hours found old) = newStatus.
Proof. by split. Qed.

(** The patched cache: the first entry carrying the id is replaced, every
    other index keeps its entry, and the fetch time is not touched. *)
Lemma optimistic_update_spec (taskId : string) (patch : Task -> Task)
    (c : Cache) (cached : list Task) (i : nat) (old : Task) :
  tasksCache c = Some cached ->
  list_find (fun t => id t = taskId) cached = Some (i, old) ->
  optimistic_update taskId patch c =
    {| tasksCache := Some (<[i := patch old]> cached);
       lastCacheTime := lastCacheTime c |}
  /\ cached !! i = Some old
  /\ id old = taskId.
Proof.
  intros Hcache Hfind. unfold optimistic_update. rewrite Hcache, Hfind.
  apply list_find_Some in Hfind as (Hlookup & Hid & _). done.
Qed.

(** A successful write leaves the remote reply aside: the new world holds
    the optimistic patch of the old cache. *)
Lemma updateTaskStatus_success (taskId : string) (newStatus : TaskStatus)
    (options : option UpdateOptions) (now : Z) (net : option JsError)
    (now' : Z) (w : World) :
  (updateTaskStatus taskId newStatus options now net now' w).1 = Ok tt ->
  local (updateTaskStatus taskId newStatus options now net now' w).2 =
    optimistic_update taskId
      (patch_task now' newStatus (options ≫= opt_actualHours)
                  (options ≫= opt_findings))
      (local w).
Proof.
  unfold updateTaskStatus.
  destruct (if default true (options ≫= merge) then _ else _); simpl; done.
Qed.

(** C1: when the task id is in the cache and the remote write of
    [updateTaskStatus] succeeds, the cache then holds the old list with the
    entry of that id carrying the new status and every other entry as it
    was (for unique ids, every entry of that id carries the new status); a
    read served from the cache right after, i.e. [fetchTasks()] within the
    freshness window or with its live fetch failing, returns that list. *)
Theorem updateTaskStatus_optimistic (w : World) (taskId : string)
    (newStatus : TaskStatus) (options : option UpdateOptions) (now : Z)
    (net : option JsError) (now' : Z) (cached : list Task) (i : nat)
    (old : Task) :
  tasksCache (local w) = Some cached ->
  list_find (fun t => id t = taskId) cached = Some (i, old) ->
  (updateTaskStatus taskId newStatus options now net now' w).1 = Ok tt ->
  let w' := (updateTaskStatus taskId newStatus options now net now' w).2 in
  exists patched,
    tasksCache (local w') = Some patched
    /\ lastCacheTime (local w') = lastCacheTime (local w)
    /\ length patched = length cached
    /\ (exists t, patched !! i = Some t /\ id t = taskId /\ status t = newStatus)
    /\ (forall j, j <> i -> patched !! j = cached !! j)
    /\ (NoDup (id <$> cached) ->
        forall t, t ∈ patched -> id t = taskId -> status t = newStatus)
    /\ (forall (read_at done_at : Z) (reply : Result (list QueryDocumentSnapshot)),
          read_at - lastCacheTime (local w') < CACHE_DURATION ->
          fetchTasks None read_at reply done_at (local w')
          = (Ok patched, local w'))
    /\ (forall (read_at done_at : Z) (e : JsError),
          fetchTasks None read_at (Throw e) done_at (local w')
          = (Ok patched, local w')).
Proof.
  intros Hcache Hfind Hok w'.
  pose proof (updateTaskStatus_success _ _ _ _ _ _ _ Hok) as Hlocal.
  fold w' in Hlocal.
  set (patch := patch_task now' newStatus (options ≫= opt_actualHours)
                           (options ≫= opt_findings)) in *.
  destruct (optimistic_update_spec taskId patch _ _ _ _ Hcache Hfind)
    as (Hupd & Hlookup & Hid).
  rewrite Hupd in Hlocal.
  assert (Hi : (i < length cached)%nat) by (by eapply lookup_lt_Some).
  assert (Hpatched : tasksCache (local w') = Some (<[i := patch old]> cached))
    by (by rewrite Hlocal).
  exists (<[i := patch old]> cached).
  split; [done |]. split; [by rewrite Hlocal |].
  split; [by rewrite length_insert |].
  split; [| split; [| split; [| split]]].
  - exists (patch old). split; [by apply list_lookup_insert_eq |].
    unfold patch. by destruct (patch_task_fields now' newStatus
      (options ≫= opt_actualHours) (options ≫= opt_findings) old) as [-> ->].
  - intros j Hj. by apply list_lookup_insert_ne.
  - intros Hnodup t Ht Htid.
    apply list_elem_of_lookup in Ht as [j Hj].
    destruct (decide (j = i)) as [-> | Hne].
    + rewrite list_lookup_insert_eq in Hj by done. by injection Hj as <-.
    + rewrite list_lookup_insert_ne in Hj by done.
      exfalso. apply Hne.
      apply (NoDup_lookup (id <$> cached) j i taskId Hnodup).
      * by rewrite list_lookup_fmap, Hj; simpl; rewrite Htid.
      * by rewrite list_lookup_fmap, Hlookup; simpl; rewrite Hid.
  - intros read_at done_at reply Hfresh. by apply fetchTasks_fresh.
  - intros read_at done_at e.
    by apply fetchTasks_default_fallback.
Qed.

Lemma updateTaskStatus_optimistic_witness :
  let w := loaded_world 1000 in
  let w' := (updateTaskStatus "task_007" completed None 2000 None 2001 w).2 in
  (status <$> default [] (tasksCache (local w)) !! 6%nat) = Some in_progress
  /\ exists patched,
       tasksCache (local w') = Some patched
       /\ (status <$> patched !! 6%nat) = Some completed.
Proof.
  intros w w'. split; [vm_compute; reflexivity |].
  set (cached := default [] (tasksCache (local w))).
  assert (Hcache : tasksCache (local w) = Some cached)
    by (vm_compute; reflexivity).
  assert (Hfind : exists old,
             list_find (fun t => id t = "task_007") cached = Some (6%nat, old))
    by (vm_compute; eexists; reflexivity).
  destruct Hfind as [old Hfind].
  assert (Hok : (updateTaskStatus "task_007" completed None 2000 None 2001 w).1
                = Ok tt)
    by (vm_compute; reflexivity).
  destruct (updateTaskStatus_optimistic w "task_007" completed None 2000 None
              2001 cached 6 old Hcache Hfind Hok)
    as (patched & Hpatched & _ & _ & (t & Hlookup & _ & Hstatus) & _).
  exists patched. split; [exact Hpatched |].
  rewrite Hlookup. simpl. by rewrite Hstatus.
Defined.

(** *** A status update on an id the store does not hold *)

(** The store answers an update of an absent document with its
    [not-found] error. *)
Lemma updateDoc_missing (ref : string) (data : Document) (store : Store) :
  store !! ref = None ->
  updateDoc None ref data store = Throw (FirestoreError "not-found").
Proof. intros Hmissing. unfold updateDoc. by rewrite Hmissing. Qed.

Lemma updateDoc_missing_fails (net : option JsError) (ref : string)
    (data : Document) (store : Store) :
  store !! ref = None ->
  exists e, updateDoc net ref data store = Throw e.
Proof.
  intros Hmissing. unfold updateDoc. rewrite Hmissing.
  destruct net; eauto.
Qed.

(** C5, as the code has it: for a task id that the remote store does not
    hold, the store refuses the write with its not-found error;
    [updateTaskStatus] catches it and throws a generic error, the
    controller's [updateStatus] catches that and throws its own generic
    error to the caller; the cache and the store are left as they were. *)
Theorem updateStatus_missing_id (w : World) (taskId : string)
    (newStatus : TaskStatus) (now : Z) (net : option JsError) (now' : Z) :
  remote w !! taskId = None ->
  updateDoc None taskId (updateData now newStatus None None) (remote w)
    = Throw (FirestoreError "not-found")
  /\ updateTaskStatus taskId newStatus None now net now' w
     = (Throw (Error "Failed to update task status. Please try again."), w)
  /\ RealtimeTasks.updateStatus taskId newStatus now net now' w
     = (Throw (Error "Failed to update status. Please try again."), w).
Proof.
  intros Hmissing.
  assert (Hclient : updateTaskStatus taskId newStatus None now net now' w
    = (Throw (Error "Failed to update task status. Please try again."), w)).
  { destruct (updateDoc_missing_fails net taskId
                (updateData now newStatus (None ≫= opt_actualHours)
                            (None ≫= opt_findings))
                (remote w) Hmissing) as [e He].
    unfold updateTaskStatus. cbv zeta.
    change (default true (None ≫= merge)) with true. cbv iota.
    by rewrite He. }
  split; [by apply updateDoc_missing |]. split; [done |].
  unfold RealtimeTasks.updateStatus. by rewrite Hclient.
Qed.

Lemma updateStatus_missing_id_witness :
  let w := loaded_world 1000 in
  remote w !! "task_999" = None
  /\ RealtimeTasks.updateStatus "task_999" completed 2000 None 2001 w
     = (Throw (Error "Failed to update status. Please try again."), w).
Proof.
  intros w.
  assert (Hmissing : remote w !! "task_999" = None)
    by (vm_compute; reflexivity).
  split; [exact Hmissing |].
  exact (proj2 (proj2 (updateStatus_missing_id w "task_999" completed
                         2000 None 2001 Hmissing))).
Defined.

(** C5 as stated fails: the error that reaches the caller is a plain
    [Error], not one of the not-found class. *)
Lemma updateStatus_error_is_generic :
  ~ (forall (w : World) (taskId : string) (newStatus : TaskStatus)
            (now : Z) (net : option JsError) (now' : Z),
       remote w !! taskId = None ->
       exists e,
         (RealtimeTasks.updateStatus taskId newStatus now net now' w).1 = Throw e
         /\ not_found_class e
         /\ local (RealtimeTasks.updateStatus taskId newStatus now net now' w).2
            = local w).
Proof.
  intros Hclaim.
  destruct (Hclaim empty_world "task_999" completed 0 None 0 eq_refl)
    as (e & Hthrown & Hclass & _).
  unfold not_found_class in Hclass. subst e.
  discriminate Hthrown.
Qed.

(** *** Seeding twice *)

(** When the probe answers and finds a record, [initializeTasks(false)]
    returns before any write. *)
Lemma initializeTasks_existing (now : Z) (commit_net : option JsError)
    (w : World) :
  remote w <> ∅ ->
  initializeTasks false now None commit_net w = (Ok tt, w).
Proof.
  intros Hrecords. unfold initializeTasks.
  rewrite checkTasksExist_ok. by rewrite bool_decide_eq_false_2.
Qed.

Lemma seeded_world_records :
  size (remote (seeded_world 1000)) = 20%nat.
Proof. vm_compute. reflexivity. Qed.

Lemma nonempty_size (store : Store) : size store <> 0%nat -> store <> ∅.
Proof. intros Hsize ->. by rewrite map_size_empty in Hsize. Qed.

(** C3, as the code has it: when records exist after a first
    [initializeTasks(false)] and the existence probe of the second call is
    answered by the store, the second call returns without any write: the
    collection and the cache are exactly as the first call left them. *)
Theorem initializeTasks_idempotent (w0 : World) (now1 now2 : Z)
    (probe1 commit1 commit2 : option JsError) :
  let w1 := (initializeTasks false now1 probe1 commit1 w0).2 in
  remote w1 <> ∅ ->
  initializeTasks false now2 None commit2 w1 = (Ok tt, w1).
Proof. intros w1 Hrecords. by apply initializeTasks_existing. Qed.

Lemma initializeTasks_idempotent_witness :
  let w1 := (initializeTasks false 1000 None None empty_world).2 in
  remote w1 <> ∅
  /\ size (remote w1) = 20%nat
  /\ initializeTasks false 2000 None None w1 = (Ok tt, w1).
Proof.
  intros w1.
  assert (Hrecords : remote w1 <> ∅).
  { apply nonempty_size. vm_compute. discriminate. }
  split; [exact Hrecords |]. split; [vm_compute; reflexivity |].
  exact (initializeTasks_idempotent empty_world 1000 2000 None None None
           Hrecords).
Defined.

(** C3 as stated fails: when the probe of the second call is answered by an
    error, the call takes the collection for empty and commits the seed
    batch over the existing records; here task_007, set to completed, is
    back to its seed status. *)
Lemma initializeTasks_reseeds_on_probe_error :
  ~ (forall (w0 : World) (now1 now2 : Z)
            (probe1 commit1 probe2 commit2 : option JsError),
       let w1 := (initializeTasks false now1 probe1 commit1 w0).2 in
       remote w1 <> ∅ ->
       remote (initializeTasks false now2 probe2 commit2 w1).2 = remote w1).
Proof.
  intros Hclaim.
  specialize (Hclaim (updated_world 1000) 3000 4000 None None
                (Some (FirestoreError "unavailable")) None).
  cbv zeta in Hclaim.
  assert (Hrecords :
    remote (initializeTasks false 3000 None None (updated_world 1000)).2 <> ∅).
  { apply nonempty_size. vm_compute. discriminate. }
  apply Hclaim in Hrecords.
  apply (f_equal (fun store => store !! "task_007" ≫= (.!! "status")))
    in Hrecords.
  vm_compute in Hrecords. discriminate Hrecords.
Qed.

(** *** Subscription errors *)

(** With an error callback registered, [subscribeToTasks] hands it the
    error and leaves the cache alone. *)
Lemma subscribeToTasks_error_forwarded {S : Type}
    (callback : list Task -> Z -> S -> S) (onError : JsError -> S -> S)
    (err : JsError) (st : Cache * S) :
  Firebase.error (subscribeToTasks callback (Some onError)) err st
  = (st.1, onError err st.2).
Proof. reflexivity. Qed.




(* ===================================================================== *)
(** ** Further properties of the store client *)
(* ===================================================================== *)

(** *** [fetchTasks] and the cache *)

Lemma fetchTasks_live (options : option FetchOptions) (c : Cache) (now now' : Z)
    (docs : list QueryDocumentSnapshot) (loaded : list Task) :
  cache_fresh (default true (options ≫= useCache)) now c = false ->
  mapM (task_of_doc now') docs = Ok loaded ->
  fetchTasks options now (Ok docs) now' c
  = (Ok loaded, {| tasksCache := Some loaded; lastCacheTime := now' |}).
Proof.
  intros Hstale Hdocs. unfold fetchTasks. rewrite Hstale. simpl.
  by rewrite Hdocs.
Qed.

(** X1: a live fetch that succeeds (stale or absent cache, or
    [useCache: false]) stores the converted list with the clock of its
    completion, and every [fetchTasks()] begun less than [CACHE_DURATION]
    after that instant returns the same list, whatever the store would have
    replied, and leaves the cache as it is. *)
Theorem fetchTasks_live_then_cached (options : option FetchOptions) (c : Cache)
    (now now' : Z) (docs : list QueryDocumentSnapshot) (loaded : list Task) :
  cache_fresh (default true (options ≫= useCache)) now c = false ->
  mapM (task_of_doc now') docs = Ok loaded ->
  let r := fetchTasks options now (Ok docs) now' c in
  r.1 = Ok loaded
  /\ r.2 = {| tasksCache := Some loaded; lastCacheTime := now' |}
  /\ (forall (later later' : Z) (reply : Result (list QueryDocumentSnapshot)),
        later - now' < CACHE_DURATION ->
        fetchTasks None later reply later' r.2 = (Ok loaded, r.2)).
Proof.
  intros Hstale Hdocs r. unfold r.
  rewrite (fetchTasks_live options c now now' docs loaded Hstale Hdocs).
  repeat split. intros later later' reply Hfresh.
  by apply fetchTasks_fresh.
Qed.

Lemma fetchTasks_live_then_cached_witness :
  let c := {| tasksCache := None; lastCacheTime := 0 |} in
  let r := fetchTasks (Some {| useCache := Some false; limit := None |})
             1000 (Ok (seed_snapshot 1000)) 1200 c in
  exists loaded,
    r.1 = Ok loaded
    /\ length loaded = 20%nat
    /\ fetchTasks None 31199 (Throw (FirestoreError "unavailable")) 31300 r.2
       = (Ok loaded, r.2).
Proof.
  intros c r.
  set (loaded := match mapM (task_of_doc 1200) (seed_snapshot 1000) with
                 | Ok converted => converted
                 | Throw _ => []
                 end).
  assert (Hdocs : mapM (task_of_doc 1200) (seed_snapshot 1000) = Ok loaded)
    by (vm_compute; reflexivity).
  destruct (fetchTasks_live_then_cached
              (Some {| useCache := Some false; limit := None |}) c 1000 1200
              (seed_snapshot 1000) loaded eq_refl Hdocs)
    as (Hresult & _ & Hlater).
  exists loaded. split; [exact Hresult |]. split; [vm_compute; reflexivity |].
  apply Hlater. reflexivity.
Defined.

Lemma slice0_positive {A : Type} (l : list A) (n : Z) :
  0 < n -> slice0 l n = take (Z.to_nat n) l.
Proof.
  intros Hn. unfold slice0.
  destruct (Z.ltb_spec n 0) as [Hneg |]; [lia | done].
Qed.

(** X2: the [limit] option on the two cache paths.  On a fresh cache a
    positive limit returns the first [limit] cached tasks (all of them when
    there are fewer), and a limit of 0 returns the whole cache.  When the
    cache is stale and the live fetch fails, the whole cache is returned and
    the limit is not applied.  The cache itself is never changed. *)
Theorem fetchTasks_limit_on_cache (c : Cache) (cached : list Task)
    (flag : option bool) (n : Z) (now now' : Z)
    (reply : Result (list QueryDocumentSnapshot)) (e : JsError) :
  tasksCache c = Some cached ->
  0 <= n ->
  let options := Some {| useCache := flag; limit := Some n |} in
  (flag <> Some false -> now - lastCacheTime c < CACHE_DURATION ->
   fetchTasks options now reply now' c
   = (Ok (if n =? 0 then cached else take (Z.to_nat n) cached), c)
   /\ (0 < n ->
       exists rest, cached = take (Z.to_nat n) cached ++ rest
                    /\ length (take (Z.to_nat n) cached)
                       = Nat.min (Z.to_nat n) (length cached)))
  /\ (CACHE_DURATION <= now - lastCacheTime c ->
      fetchTasks options now (Throw e) now' c = (Ok cached, c)).
Proof.
  intros Hcache Hn options. split.
  - intros Hflag Hfresh. split.
    + unfold fetchTasks, cache_fresh, options. simpl.
      assert (Huse : default true flag = true)
        by (destruct flag as [[] |]; done).
      rewrite Huse, Hcache. rewrite bool_decide_eq_true_2 by eauto.
      apply Z.ltb_lt in Hfresh. rewrite Hfresh. simpl.
      destruct (Z.eqb_spec n 0) as [-> | Hne]; [done |].
      by rewrite slice0_positive by lia.
    + intros Hpos. exists (drop (Z.to_nat n) cached).
      split; [by rewrite take_drop | by rewrite length_take].
  - intros Hstale. apply fetchTasks_fallback; [done |].
    unfold cache_fresh.
    destruct (Z.ltb_spec (now - lastCacheTime c) CACHE_DURATION); [lia |].
    by rewrite andb_false_r.
Qed.

Lemma fetchTasks_limit_on_cache_witness :
  let c := local (loaded_world 1000) in
  let options := Some {| useCache := None; limit := Some 5 |} in
  (exists first5,
     fetchTasks options 2000 (Throw (FirestoreError "unavailable")) 2000 c
     = (Ok first5, c) /\ length first5 = 5%nat)
  /\ (exists whole,
        fetchTasks options 50000 (Throw (FirestoreError "unavailable")) 50000 c
        = (Ok whole, c) /\ length whole = 20%nat).
Proof.
  intros c options.
  set (cached := default [] (tasksCache c)).
  assert (Hcache : tasksCache c = Some cached) by (vm_compute; reflexivity).
  destruct (fetchTasks_limit_on_cache c cached None 5 2000 2000
              (Throw (FirestoreError "unavailable"))
              (FirestoreError "unavailable") Hcache)
    as [Hfresh _]; [lia |].
  destruct (fetchTasks_limit_on_cache c cached None 5 50000 50000
              (Throw (FirestoreError "unavailable"))
              (FirestoreError "unavailable") Hcache)
    as [_ Hstale]; [lia |].
  split.
  - exists (take 5 cached). split; [| vm_compute; reflexivity].
    apply Hfresh; [discriminate | vm_compute; reflexivity].
  - exists cached. split; [| vm_compute; reflexivity].
    apply Hstale. vm_compute. discriminate.
Defined.

(** X3: [clearCache] drops the fallback along with the list: right after
    it a failed fetch throws under any options, even if a list had been
    cached, and a successful one is always live. *)
Theorem clearCache_then_fetch (c : Cache) (options : option FetchOptions)
    (now now' : Z) :
  (forall e : JsError,
      fetchTasks options now (Throw e) now' (clearCache c)
      = (Throw (Error "Failed to fetch tasks. Please check your connection."),
         clearCache c))
  /\ (forall (docs : list QueryDocumentSnapshot) (loaded : list Task),
        mapM (task_of_doc now') docs = Ok loaded ->
        fetchTasks options now (Ok docs) now' (clearCache c)
        = (Ok loaded, {| tasksCache := Some loaded; lastCacheTime := now' |})).
Proof.
  assert (Hstale : cache_fresh (default true (options ≫= useCache)) now
                     (clearCache c) = false).
  { unfold cache_fresh, clearCache. simpl. by rewrite andb_false_r. }
  split.
  - intros e. unfold fetchTasks. by rewrite Hstale.
  - intros docs loaded Hdocs. by apply fetchTasks_live.
Qed.

Lemma mapM_fails {A B : Type} (f : A -> Result B) (l : list A) (x : A)
    (e : JsError) :
  x ∈ l -> f x = Throw e -> exists e', mapM f l = Throw e'.
Proof.
  intros Hin Hx. induction l as [| y l IH]; [by apply elem_of_nil in Hin |].
  apply elem_of_cons in Hin as [<- | Hin]; simpl.
  - rewrite Hx. eauto.
  - destruct (f y); simpl; [| eauto].
    destruct (IH Hin) as [e' ->]. eauto.
Qed.

(** X4: one document whose [lastUpdated] makes [convertTimestamp] throw
    fails the whole reply.  A live fetch then behaves as if the store had
    failed (cached list or error) and caches nothing of the reply; a
    subscription push is dropped and neither the cache nor the controller
    changes. *)
Theorem bad_document_fails_reply (docs : list QueryDocumentSnapshot)
    (doc : QueryDocumentSnapshot) (e : JsError) (now' : Z) :
  doc ∈ docs ->
  convertTimestamp now' (Data.lastUpdated (doc_data doc)) = Throw e ->
  (forall (options : option FetchOptions) (now : Z) (c : Cache),
      cache_fresh (default true (options ≫= useCache)) now c = false ->
      fetchTasks options now (Ok docs) now' c
      = (match tasksCache c with
         | Some cached => Ok cached
         | None =>
             Throw (Error "Failed to fetch tasks. Please check your connection.")
         end, c))
  /\ (forall st : Cache * RealtimeTasks.State,
        RealtimeTasks.deliver (RealtimeTasks.Push now' docs) st = st).
Proof.
  intros Hin Hbad.
  assert (Hdoc : task_of_doc now' doc = Throw e)
    by (unfold task_of_doc; by rewrite Hbad).
  destruct (mapM_fails (task_of_doc now') docs doc e Hin Hdoc) as [e' Hfail].
  split.
  - intros options now c Hstale. unfold fetchTasks. rewrite Hstale. simpl.
    rewrite Hfail. by destruct (tasksCache c).
  - intros st. unfold RealtimeTasks.deliver.
    destruct (RealtimeTasks.unsubscribeRef st.2); [| done].
    simpl. by rewrite Hfail.
Qed.

Lemma bad_document_fails_reply_witness :
  let docs := seed_snapshot 1000 ++ [broken_document] in
  let c := local (loaded_world 1000) in
  (exists cached,
     fetchTasks None 50000 (Ok docs) 50000 c = (Ok cached, c)
     /\ length cached = 20%nat)
  /\ RealtimeTasks.deliver (RealtimeTasks.Push 50000 docs)
       (subscribed_controller 1000)
     = subscribed_controller 1000.
Proof.
  intros docs c.
  destruct (bad_document_fails_reply docs broken_document
              (TypeError "timestamp.toDate is not a function") 50000)
    as [Hfetch Hpush].
  - unfold docs. apply elem_of_app. right. apply list_elem_of_singleton.
    reflexivity.
  - reflexivity.
  - split; [| apply Hpush].
    exists (default [] (tasksCache c)).
    split; [| vm_compute; reflexivity].
    rewrite (Hfetch None 50000 c); [| vm_compute; reflexivity].
    vm_compute. reflexivity.
Defined.

Lemma mapM_Ok_elem {A B : Type} (f : A -> Result B) (l : list A)
    (out : list B) (x : A) :
  mapM f l = Ok out -> x ∈ l -> exists y, f x = Ok y /\ y ∈ out.
Proof.
  revert out. induction l as [| a l IH]; intros out Hout Hin;
    [by apply elem_of_nil in Hin |].
  simpl in Hout. destruct (f a) as [b |] eqn:Ha; [| discriminate Hout].
  simpl in Hout. destruct (mapM f l) as [bs |]; [| discriminate Hout].
  injection Hout as <-.
  apply elem_of_cons in Hin as [-> | Hin].
  - exists b. split; [done | by left].
  - destruct (IH bs eq_refl Hin) as (y & Hy & Hyin).
    exists y. split; [done | by right].
Qed.

(** X18: the two read paths convert a document alike.  When a live
    [fetchTasks] succeeds on a reply, [getTaskById] on any document of that
    reply (read at the same instant) returns a task of the fetched list; its
    id is the id of the document unless the data hold an [id] field, which
    then replaces it on both paths.  On an absent document [getTaskById]
    returns null instead of throwing, and an error of the store comes out
    as it is, with no generic wrapper. *)
Theorem getTaskById_agrees_with_fetch (docs : list QueryDocumentSnapshot)
    (loaded : list Task) (now' : Z) :
  mapM (task_of_doc now') docs = Ok loaded ->
  (forall doc, doc ∈ docs ->
     exists task,
       getTaskById now' (Ok (Some doc)) = Ok (Some task)
       /\ task ∈ loaded
       /\ id task = default (doc_id doc) (data_id doc))
  /\ getTaskById now' (Ok None) = Ok None
  /\ (forall e, getTaskById now' (Throw e) = Throw e).
Proof.
  intros Hdocs. split; [| by split].
  intros doc Hin.
  destruct (mapM_Ok_elem _ _ _ _ Hdocs Hin) as (task & Htask & Hloaded).
  exists task. unfold getTaskById. cbn [bind]. rewrite Htask. simpl.
  split; [done |]. split; [done |].
  unfold task_of_doc in Htask.
  destruct (convertTimestamp now' _); [| discriminate Htask].
  by injection Htask as <-.
Qed.

Lemma getTaskById_agrees_with_fetch_witness :
  let docs := seed_snapshot 1000 ++ [aliased_document] in
  exists loaded task task',
    mapM (task_of_doc 1000) docs = Ok loaded
    /\ getTaskById 1000 (Ok (docs !! 6%nat)) = Ok (Some task)
    /\ task ∈ loaded /\ id task = "task_007"
    /\ getTaskById 1000 (Ok (Some aliased_document)) = Ok (Some task')
    /\ task' ∈ loaded /\ id task' = "inner".
Proof.
  intros docs.
  set (loaded := match mapM (task_of_doc 1000) docs with
                 | Ok converted => converted
                 | Throw _ => []
                 end).
  assert (Hdocs : mapM (task_of_doc 1000) docs = Ok loaded)
    by (vm_compute; reflexivity).
  assert (Hdoc : exists doc, docs !! 6%nat = Some doc
                             /\ doc_id doc = "task_007"
                             /\ data_id doc = None)
    by (vm_compute; eexists; repeat split; reflexivity).
  destruct Hdoc as (doc & Hlookup & Hid & Hnone).
  destruct (getTaskById_agrees_with_fetch docs loaded 1000 Hdocs)
    as (Hall & _).
  destruct (Hall doc) as (task & Hget & Hin & Htask).
  { apply list_elem_of_lookup. by exists 6%nat. }
  destruct (Hall aliased_document) as (task' & Hget' & Hin' & Htask').
  { apply elem_of_app. right. by apply list_elem_of_singleton. }
  exists loaded, task, task'. split; [exact Hdocs |].
  rewrite Hlookup. split; [exact Hget |]. split; [exact Hin |].
  split; [by rewrite Htask, Hnone, Hid |].
  split; [exact Hget' |]. split; [exact Hin' | exact Htask'].
Defined.

(** *** Seeding *)

Lemma foldl_insert_notin (sets : list (string * Document)) (store : Store)
    (key : string) :
  key ∉ sets.*1 ->
  foldl (fun st op => <[op.1 := op.2]> st) store sets !! key = store !! key.
Proof.
  revert store. induction sets as [| [k d] sets IH]; intros store Hnotin;
    [done |].
  simpl in *. apply not_elem_of_cons in Hnotin as [Hne Hnotin].
  rewrite IH by done. by rewrite lookup_insert_ne.
Qed.

Lemma foldl_insert_in (sets : list (string * Document)) (store : Store)
    (i : nat) (key : string) (d : Document) :
  NoDup sets.*1 -> sets !! i = Some (key, d) ->
  foldl (fun st op => <[op.1 := op.2]> st) store sets !! key = Some d.
Proof.
  revert store i. induction sets as [| [k d'] sets IH]; intros store i Hnodup Hi;
    [done |].
  simpl in *. apply NoDup_cons in Hnodup as [Hfresh Hnodup].
  destruct i as [| i]; simpl in Hi.
  - injection Hi as -> ->.
    rewrite foldl_insert_notin by done. by rewrite lookup_insert_eq.
  - by apply (IH _ i).
Qed.

Lemma seed_batch_ids (now : Z) :
  (seed_batch now).*1 = task_doc_id <$> seq 0 20.
Proof. vm_compute. reflexivity. Qed.

Lemma seed_ids_NoDup : NoDup (task_doc_id <$> seq 0 20).
Proof. apply (bool_decide_unpack _). vm_compute. exact I. Qed.

(** X5: a forced seed whose commit succeeds writes each seed record under
    its id, stamped with the batch instant and its order, whatever the
    document held before and whatever the probe answered; every document
    under another id is left as it was, and the cache is dropped. *)
Theorem initializeTasks_force_overwrites (now : Z) (probe_net : option JsError)
    (w : World) :
  let r := initializeTasks true now probe_net None w in
  r.1 = Ok tt
  /\ (forall (index : nat) (task : Data.t),
        initialTasks now !! index = Some task ->
        remote r.2 !! task_doc_id index = Some (seed_document now index task))
  /\ (forall ref : string,
        ref ∉ task_doc_id <$> seq 0 20 -> remote r.2 !! ref = remote w !! ref)
  /\ tasksCache (local r.2) = None
  /\ lastCacheTime (local r.2) = lastCacheTime (local w).
Proof.
  intros r.
  assert (Hr : r = (Ok tt,
            {| remote := foldl (fun st op => <[op.1 := op.2]> st) (remote w)
                               (seed_batch now);
               local := {| tasksCache := None;
                           lastCacheTime := lastCacheTime (local w) |} |})).
  { unfold r, initializeTasks.
    destruct (checkTasksExist probe_net (remote w)) as [found | e] eqn:Hprobe.
    - by rewrite andb_false_r.
    - unfold checkTasksExist in Hprobe.
      destruct (getDocs_limit1 probe_net (remote w)); discriminate Hprobe. }
  rewrite Hr. cbn [fst snd remote local tasksCache lastCacheTime].
  repeat split.
  - intros index task Hindex.
    apply (foldl_insert_in _ _ index).
    + rewrite seed_batch_ids. apply seed_ids_NoDup.
    + unfold seed_batch. by rewrite list_lookup_imap, Hindex.
  - intros ref Hother. apply foldl_insert_notin. by rewrite seed_batch_ids.
Qed.

(** *** Status updates and the stored document *)

Lemma set_optional_lookup (k : string) (v : option JsValue) (d : Document)
    (key : string) :
  set_optional k v d !! key
  = match v with
    | Some x => if decide (k = key) then Some x else d !! key
    | None => d !! key
    end.
Proof.
  destruct v as [x |]; simpl; [| done].
  case_decide as Hk; [subst; by rewrite lookup_insert_eq |].
  by rewrite lookup_insert_ne.
Qed.

Lemma updateData_status (now : Z) (s : TaskStatus) (hours : option Z)
    (found : option string) :
  updateData now s hours found !! "status" = Some (JsString (status_string s))
  /\ updateData now s hours found !! "lastUpdated"
     = Some (JsTimestamp (Timestamp_now now))
  /\ updateData now s hours found !! "actualHours" = JsNumber <$> hours
  /\ updateData now s hours found !! "findings" = JsString <$> found.
Proof.
  unfold updateData. rewrite !set_optional_lookup.
  destruct hours, found; simpl; repeat case_decide; try done;
    by simplify_map_eq.
Qed.

Lemma updateData_other (now : Z) (s : TaskStatus) (hours : option Z)
    (found : option string) (key : string) :
  key ∉ status_update_keys -> updateData now s hours found !! key = None.
Proof.
  unfold status_update_keys. rewrite !not_elem_of_cons.
  intros (H1 & H2 & H3 & H4 & _).
  unfold updateData. rewrite !set_optional_lookup.
  destruct hours, found; simpl; repeat case_decide; try done;
    by simplify_map_eq.
Qed.

Lemma union_lookup_left (data old : Document) (key : string) (v : JsValue) :
  data !! key = Some v -> (data ∪ old) !! key = Some v.
Proof. intros H. by apply lookup_union_Some_l. Qed.

Lemma union_lookup_right (data old : Document) (key : string) :
  data !! key = None -> (data ∪ old) !! key = old !! key.
Proof. intros H. by apply lookup_union_r. Qed.

(** X6: a status update of a stored document that the store accepts, in
    either merge mode, sets the document's [status] to the new status and
    its [lastUpdated] to the store timestamp of the call, writes
    [actualHours] and [findings] only when they are given, and leaves every
    other field of the document and every other document as they were. *)
Theorem updateTaskStatus_store_effect (w : World) (taskId : string)
    (newStatus : TaskStatus) (options : option UpdateOptions) (now now' : Z)
    (old : Document) :
  remote w !! taskId = Some old ->
  let r := updateTaskStatus taskId newStatus options now None now' w in
  r.1 = Ok tt
  /\ (exists doc,
        remote r.2 !! taskId = Some doc
        /\ doc !! "status" = Some (JsString (status_string newStatus))
        /\ doc !! "lastUpdated" = Some (JsTimestamp (Timestamp_now now))
        /\ doc !! "actualHours"
           = match options ≫= opt_actualHours with
             | Some h => Some (JsNumber h)
             | None => old !! "actualHours"
             end
        /\ doc !! "findings"
           = match options ≫= opt_findings with
             | Some f => Some (JsString f)
             | None => old !! "findings"
             end
        /\ (forall key, key ∉ status_update_keys -> doc !! key = old !! key))
  /\ (forall ref, ref <> taskId -> remote r.2 !! ref = remote w !! ref).
Proof.
  intros Hold r.
  set (data := updateData now newStatus (options ≫= opt_actualHours)
                          (options ≫= opt_findings)).
  assert (Hr : r = (Ok tt,
            {| remote := <[taskId := data ∪ old]> (remote w);
               local := optimistic_update taskId
                          (patch_task now' newStatus
                             (options ≫= opt_actualHours)
                             (options ≫= opt_findings)) (local w) |})).
  { unfold r, updateTaskStatus, updateDoc, setDoc_merge. fold data.
    rewrite Hold. by destruct (default true (options ≫= merge)). }
  rewrite Hr. simpl.
  destruct (updateData_status now newStatus (options ≫= opt_actualHours)
              (options ≫= opt_findings)) as (Hs & Hl & Hh & Hf).
  fold data in Hs, Hl, Hh, Hf.
  split; [done |]. split.
  - exists (data ∪ old). rewrite lookup_insert_eq.
    split; [done |].
    split; [by apply union_lookup_left |].
    split; [by apply union_lookup_left |].
    split; [| split].
    + destruct (options ≫= opt_actualHours) as [h |]; simpl in Hh.
      * by apply union_lookup_left.
      * by apply union_lookup_right.
    + destruct (options ≫= opt_findings) as [f |]; simpl in Hf.
      * by apply union_lookup_left.
      * by apply union_lookup_right.
    + intros key Hkey. apply union_lookup_right.
      by apply updateData_other.
  - intros ref Hne. by rewrite lookup_insert_ne.
Qed.

Lemma updateTaskStatus_store_effect_witness :
  let w := loaded_world 1000 in
  let r := updateTaskStatus "task_007" completed None 2000 None 2001 w in
  (remote w !! "task_007" ≫= (.!! "status")) = Some (JsString "in-progress")
  /\ (remote r.2 !! "task_007" ≫= (.!! "status")) = Some (JsString "completed")
  /\ remote r.2 !! "task_008" = remote w !! "task_008".
Proof.
  intros w r.
  set (old := default ∅ (remote w !! "task_007")).
  assert (Hold : remote w !! "task_007" = Some old)
    by (vm_compute; reflexivity).
  destruct (updateTaskStatus_store_effect w "task_007" completed None
              2000 2001 old Hold)
    as (_ & (doc & Hdoc & Hstatus & _) & Hothers).
  split; [vm_compute; reflexivity |]. split.
  - fold r in Hdoc. rewrite Hdoc. simpl. exact Hstatus.
  - apply Hothers. discriminate.
Defined.

(** *** The cache under updates *)

Lemma optimistic_update_ids (taskId : string) (patch : Task -> Task)
    (c : Cache) :
  (forall t, id (patch t) = id t) ->
  cache_ids (optimistic_update taskId patch c) = cache_ids c
  /\ lastCacheTime (optimistic_update taskId patch c) = lastCacheTime c.
Proof.
  intros Hid. unfold optimistic_update, cache_ids.
  destruct (tasksCache c) as [cached |] eqn:Hcache; [| by rewrite Hcache].
  destruct (list_find _ cached) as [[i old] |] eqn:Hfind;
    [| by rewrite Hcache].
  simpl. split; [| done]. f_equal.
  apply list_find_Some in Hfind as (Hlookup & _ & _).
  change (List.map id) with (fmap (M := list) id).
  rewrite list_fmap_insert, Hid.
  apply list_insert_id. by rewrite list_lookup_fmap, Hlookup.
Qed.

(** X7: whatever the outcome, [updateTaskStatus] and [updateTask] (whose
    [updates] are typed without an id) keep the ids of the cached tasks and
    their order (no entry is added, dropped or moved, and none changes its
    id) and leave the cache's fetch time as it was: an optimistic patch
    never makes a stale cache fresh. *)
Theorem updates_keep_cache_ids (w : World) (taskId : string)
    (newStatus : TaskStatus) (options : option UpdateOptions)
    (updates : Partial.t) (options' : option UpdateTaskOptions)
    (now : Z) (net : option JsError) (now' : Z) :
  let w1 := (updateTaskStatus taskId newStatus options now net now' w).2 in
  let w2 := (updateTask taskId updates options' now net now' w).2 in
  (cache_ids (local w1) = cache_ids (local w)
   /\ lastCacheTime (local w1) = lastCacheTime (local w))
  /\ (cache_ids (local w2) = cache_ids (local w)
      /\ lastCacheTime (local w2) = lastCacheTime (local w)).
Proof.
  intros w1 w2. split.
  - unfold w1, updateTaskStatus.
    destruct (if default true (options ≫= merge) then _ else _); simpl;
      [| done].
    by apply optimistic_update_ids.
  - unfold w2, updateTask.
    destruct (if default true (options' ≫= ut_merge) then _ else _); simpl;
      [| done].
    by apply optimistic_update_ids.
Qed.

(** X8: with [merge: false] a status update of an id the store does not
    hold succeeds and creates a document that has the update fields only
    (no [day], no [title], ...); with the default options the same call
    fails and changes nothing. *)
Theorem updateTaskStatus_upsert (w : World) (taskId : string)
    (newStatus : TaskStatus) (hours : option Z) (found : option string)
    (now now' : Z) :
  remote w !! taskId = None ->
  let options :=
    Some {| opt_actualHours := hours; opt_findings := found;
            merge := Some false |} in
  let r := updateTaskStatus taskId newStatus options now None now' w in
  r.1 = Ok tt
  /\ (exists doc,
        remote r.2 !! taskId = Some doc
        /\ doc !! "status" = Some (JsString (status_string newStatus))
        /\ (forall key, key ∉ status_update_keys -> doc !! key = None))
  /\ updateTaskStatus taskId newStatus None now None now' w
     = (Throw (Error "Failed to update task status. Please try again."), w).
Proof.
  intros Hmissing options r.
  assert (Hr : remote r.2 !! taskId
               = Some (updateData now newStatus hours found) /\ r.1 = Ok tt).
  { unfold r, updateTaskStatus, setDoc_merge. simpl.
    rewrite Hmissing. simpl. rewrite lookup_insert_eq.
    by rewrite (right_id ∅ (∪)). }
  destruct Hr as [Hdoc Hok].
  split; [done |]. split.
  - exists (updateData now newStatus hours found). split; [done |].
    split; [apply updateData_status |].
    intros key Hkey. by apply updateData_other.
  - unfold updateTaskStatus, updateDoc. simpl. by rewrite Hmissing.
Qed.

Lemma updateTaskStatus_upsert_witness :
  let w := loaded_world 1000 in
  let options :=
    Some {| opt_actualHours := None; opt_findings := None;
            merge := Some false |} in
  let r := updateTaskStatus "task_999" blocked options 2000 None 2001 w in
  remote w !! "task_999" = None
  /\ r.1 = Ok tt
  /\ (remote r.2 !! "task_999" ≫= (.!! "title")) = None
  /\ (remote r.2 !! "task_999" ≫= (.!! "status")) = Some (JsString "blocked").
Proof.
  intros w options r.
  assert (Hmissing : remote w !! "task_999" = None)
    by (vm_compute; reflexivity).
  destruct (updateTaskStatus_upsert w "task_999" blocked None None 2000 2001
              Hmissing)
    as (Hok & (doc & Hdoc & Hstatus & Hother) & _).
  split; [exact Hmissing |]. split; [exact Hok |].
  fold options in Hdoc. fold r in Hdoc. rewrite Hdoc. simpl.
  split; [| exact Hstatus].
  apply Hother. vm_compute. 
  intros Hin. repeat (apply elem_of_cons in Hin as [Hin | Hin];
                      [discriminate Hin |]).
  by apply elem_of_nil in Hin.
Defined.

(** *** [updateTask] *)

Lemma insert_set_optional_comm (k k' : string) (x : JsValue)
    (v : option JsValue) (d : Document) :
  k <> k' -> <[k := x]> (set_optional k' v d) = set_optional k' v (<[k := x]> d).
Proof.
  intros Hne. destruct v as [y |]; simpl; [| done].
  by apply insert_insert_ne.
Qed.

Lemma insert_set_optional_same (k : string) (x : JsValue)
    (v : option JsValue) (d : Document) :
  <[k := x]> (set_optional k v d) = <[k := x]> d.
Proof. destruct v as [y |]; simpl; [| done]. by apply insert_insert_eq. Qed.

(** X9: [updateTask(id, { status })] and [updateTaskStatus(id, status)] do
    the same to the store and to the cache, and succeed or fail together
    (only the message of the error differs). *)
Theorem updateTask_status_only (w : World) (taskId : string)
    (newStatus : TaskStatus) (now : Z) (net : option JsError) (now' : Z) :
  let r := updateTask taskId (status_only newStatus) None now net now' w in
  let r' := updateTaskStatus taskId newStatus None now net now' w in
  r.2 = r'.2
  /\ (r.1 = Ok tt <-> r'.1 = Ok tt)
  /\ (r.1 <> Ok tt ->
      r.1 = Throw (Error "Failed to update task. Please try again.")
      /\ r'.1 = Throw (Error "Failed to update task status. Please try again.")).
Proof.
  intros r r'.
  assert (Hdata : updateTask_data now (status_only newStatus)
                  = updateData now newStatus None None).
  { unfold updateTask_data, updateData, partial_fields, status_only. simpl.
    by apply insert_insert_ne. }
  assert (Hpatch : optimistic_update taskId
                     (merge_task now' (status_only newStatus)) (local w)
                   = optimistic_update taskId
                       (patch_task now' newStatus None None) (local w)).
  { unfold optimistic_update.
    destruct (tasksCache (local w)) as [cached |]; [| done].
    by destruct (list_find _ cached) as [[i old] |]. }
  unfold r, r', updateTask, updateTaskStatus. simpl.
  change (None ≫= opt_actualHours) with (@None Z).
  change (None ≫= opt_findings) with (@None string).
  rewrite Hdata, Hpatch.
  destruct (updateDoc net taskId (updateData now newStatus None None)
              (remote w)); simpl.
  - repeat split; done.
  - repeat split; done.
Qed.

(** X10: a [lastUpdated] passed in [updates] is never used: the store
    receives the timestamp of the call and the cache the date of its
    completion, so the outcome is that of the same call without it. *)
Theorem updateTask_ignores_lastUpdated (w : World) (taskId : string)
    (updates : Partial.t) (v : option JsValue)
    (options : option UpdateTaskOptions) (now : Z) (net : option JsError)
    (now' : Z) :
  updateTask taskId (with_lastUpdated v updates) options now net now' w
  = updateTask taskId (with_lastUpdated None updates) options now net now' w.
Proof.
  assert (Hdata : updateTask_data now (with_lastUpdated v updates)
                  = updateTask_data now (with_lastUpdated None updates)).
  { unfold updateTask_data, partial_fields, with_lastUpdated. simpl.
    rewrite !insert_set_optional_comm by done.
    rewrite insert_set_optional_same.
    by rewrite ?insert_set_optional_comm by done. }
  unfold updateTask. by rewrite Hdata.
Qed.

(** *** [deleteTask] *)

Lemma filter_Selects_id (taskId : string) (cached : list Task) :
  Selects (fun t => id t <> taskId) cached
    (List.filter (fun t => negb (String.eqb (id t) taskId)) cached).
Proof.
  apply Selects_filter. intros t.
  rewrite negb_true_iff. apply String.eqb_neq.
Qed.

(** X11: a delete that the store accepts removes the document (an absent
    one is no error) and leaves the other documents; the cache, if any,
    keeps exactly the tasks of another id, in their order, every entry of
    that id being dropped, and keeps its fetch time, so that a
    [fetchTasks()] within the freshness window returns the shortened list. *)
Theorem deleteTask_effect (w : World) (taskId : string) :
  let r := deleteTask taskId None w in
  r.1 = Ok tt
  /\ remote r.2 !! taskId = None
  /\ (forall ref, ref <> taskId -> remote r.2 !! ref = remote w !! ref)
  /\ lastCacheTime (local r.2) = lastCacheTime (local w)
  /\ (tasksCache (local w) = None -> tasksCache (local r.2) = None)
  /\ (forall cached, tasksCache (local w) = Some cached ->
      exists kept,
        tasksCache (local r.2) = Some kept
        /\ Selects (fun t => id t <> taskId) cached kept
        /\ (forall t, t ∈ kept <-> t ∈ cached /\ id t <> taskId)
        /\ (forall (now now' : Z) (reply : Result (list QueryDocumentSnapshot)),
              now - lastCacheTime (local w) < CACHE_DURATION ->
              fetchTasks None now reply now' (local r.2)
              = (Ok kept, local r.2))).
Proof.
  intros r. unfold r, deleteTask, deleteDoc. simpl.
  split; [done |]. split; [apply lookup_delete_eq |].
  split; [intros ref Hne; by apply lookup_delete_ne |].
  split; [done |]. split; [by intros -> |].
  intros cached Hcache. rewrite Hcache. simpl.
  eexists. split; [done |].
  pose proof (filter_Selects_id taskId cached) as Hsel.
  split; [done |]. split; [by apply Selects_elem_of |].
  intros now now' reply Hfresh. by apply fetchTasks_fresh.
Qed.

(** X12: deleting the same id again changes nothing: a second accepted
    delete returns normally on the world the first one left. *)
Theorem deleteTask_idempotent (w : World) (taskId : string) :
  let w1 := (deleteTask taskId None w).2 in
  deleteTask taskId None w1 = (Ok tt, w1).
Proof.
  intros w1. unfold w1, deleteTask, deleteDoc. simpl.
  f_equal. f_equal.
  - apply delete_id. apply lookup_delete_eq.
  - f_equal. destruct (tasksCache (local w)) as [cached |]; [| done].
    simpl. f_equal.
    induction cached as [| t cached IH]; [done |]. simpl.
    destruct (negb (String.eqb (id t) taskId)) eqn:Hkeep; simpl;
      [by rewrite Hkeep, IH | done].
Qed.

Lemma updateTaskStatus_missing (w : World) (taskId : string)
    (newStatus : TaskStatus) (now : Z) (net : option JsError) (now' : Z) :
  remote w !! taskId = None ->
  updateTaskStatus taskId newStatus None now net now' w
  = (Throw (Error "Failed to update task status. Please try again."), w).
Proof.
  intros Hmissing. unfold updateTaskStatus, updateDoc. simpl.
  rewrite Hmissing. by destruct net.
Qed.

(** X13: once a task is deleted, a status update of its id through the
    controller fails with the controller's generic error and changes neither
    the store nor the cache: the default update never brings a deleted
    document back. *)
Theorem delete_then_update_fails (w : World) (taskId : string)
    (newStatus : TaskStatus) (now : Z) (net : option JsError) (now' : Z) :
  let w1 := (deleteTask taskId None w).2 in
  RealtimeTasks.updateStatus taskId newStatus now net now' w1
  = (Throw (Error "Failed to update status. Please try again."), w1).
Proof.
  intros w1. unfold RealtimeTasks.updateStatus.
  rewrite updateTaskStatus_missing; [done |].
  unfold w1, deleteTask, deleteDoc. simpl. apply lookup_delete_eq.
Qed.

(* ===================================================================== *)
(** ** Further properties of the realtime controller *)
(* ===================================================================== *)

(** X14: while the cache is fresh, [refresh()] does not reach the store:
    whatever the store would reply, the controller gets the cached list,
    the cache keeps its content and fetch time, the last-sync instant is
    nevertheless set to the clock, and the error flag is not touched. *)
Theorem refresh_served_from_cache (st : Cache * RealtimeTasks.State)
    (cached : list Task) (now now' : Z)
    (reply : Result (list QueryDocumentSnapshot)) :
  tasksCache st.1 = Some cached ->
  now - lastCacheTime st.1 < CACHE_DURATION ->
  RealtimeTasks.refresh now reply now' st
  = (st.1,
     {| RealtimeTasks.tasks := cached;
        RealtimeTasks.loading := false;
        RealtimeTasks.lastSync := Some now';
        RealtimeTasks.error := RealtimeTasks.error st.2;
        RealtimeTasks.unsubscribeRef := RealtimeTasks.unsubscribeRef st.2 |}).
Proof.
  intros Hcache Hfresh. unfold RealtimeTasks.refresh.
  by rewrite (fetchTasks_fresh st.1 cached now now' reply Hcache Hfresh).
Qed.

Lemma refresh_served_from_cache_witness :
  let st := subscribed_controller 1000 in
  RealtimeTasks.tasks
    (RealtimeTasks.refresh 30999 (Ok []) 31000 st).2
  = RealtimeTasks.tasks st.2
  /\ length (RealtimeTasks.tasks st.2) = 20%nat
  /\ (RealtimeTasks.refresh 30999 (Ok []) 31000 st).1 = st.1.
Proof.
  intros st.
  set (cached := default [] (tasksCache st.1)).
  assert (Hcache : tasksCache st.1 = Some cached) by (vm_compute; reflexivity).
  assert (Hfresh : 30999 - lastCacheTime st.1 < CACHE_DURATION)
    by (vm_compute; reflexivity).
  rewrite (refresh_served_from_cache st cached 30999 31000 (Ok [])
             Hcache Hfresh).
  simpl. split; [vm_compute; reflexivity |].
  split; [vm_compute; reflexivity | reflexivity].
Defined.

(** X15: when the initial fetch fails and nothing is cached, the
    controller shows the load error with an empty list and opens no
    subscription: no later event of the store reaches it. *)
Theorem setupSubscription_failure_no_subscription (c : Cache) (e : JsError)
    (now now' : Z) :
  tasksCache c = None ->
  let st := RealtimeTasks.setupSubscription now (Throw e) now'
              (c, RealtimeTasks.initial) in
  st.1 = c
  /\ RealtimeTasks.tasks st.2 = []
  /\ RealtimeTasks.loading st.2 = false
  /\ RealtimeTasks.error st.2 = Some "Failed to load tasks"
  /\ RealtimeTasks.unsubscribeRef st.2 = false
  /\ (forall ev, RealtimeTasks.deliver ev st = st).
Proof.
  intros Hnone st.
  assert (Hst : st = (c,
    {| RealtimeTasks.tasks := [];
       RealtimeTasks.loading := false;
       RealtimeTasks.lastSync := None;
       RealtimeTasks.error := Some "Failed to load tasks";
       RealtimeTasks.unsubscribeRef := false |})).
  { unfold st, RealtimeTasks.setupSubscription, fetchTasks, cache_fresh. simpl.
    by rewrite Hnone. }
  rewrite Hst. by repeat split.
Qed.

Lemma setupSubscription_failure_no_subscription_witness :
  let st := RealtimeTasks.setupSubscription 1000
              (Throw (FirestoreError "unavailable")) 1001
              (local empty_world, RealtimeTasks.initial) in
  RealtimeTasks.error st.2 = Some "Failed to load tasks"
  /\ RealtimeTasks.deliver (RealtimeTasks.Push 2000 (seed_snapshot 2000)) st
     = st.
Proof.
  intros st.
  destruct (setupSubscription_failure_no_subscription (local empty_world)
              (FirestoreError "unavailable") 1000 1001 eq_refl)
    as (_ & _ & _ & Herror & _ & Hignored).
  split; [exact Herror | apply Hignored].
Defined.



Lemma run_op_keeps_error (st : Cache * RealtimeTasks.State) (op : ControllerOp) :
  is_Some (RealtimeTasks.error st.2) ->
  is_Some (RealtimeTasks.error (run_op st op).2).
Proof.
  intros Hset. destruct op as [now reply now' | [now docs | err] |]; simpl.
  - unfold RealtimeTasks.refresh.
    destruct (fetchTasks None now reply now' st.1) as [[fresh | e] c]; simpl;
      [done | eauto].
  - unfold RealtimeTasks.deliver.
    destruct (RealtimeTasks.unsubscribeRef st.2); [| done]. simpl.
    by destruct (mapM (task_of_doc now) docs).
  - unfold RealtimeTasks.deliver.
    by destruct (RealtimeTasks.unsubscribeRef st.2).
  - done.
Qed.

(** X17: once the error flag of a mounted controller is set, no refresh
    (successful or not), no push, no subscription error and no cleanup
    clears it. *)
Theorem error_flag_never_cleared (ops : list ControllerOp)
    (st : Cache * RealtimeTasks.State) :
  is_Some (RealtimeTasks.error st.2) ->
  is_Some (RealtimeTasks.error (foldl run_op st ops).2).
Proof.
  revert st. induction ops as [| op ops IH]; intros st Hset; [done |].
  simpl. apply IH. by apply run_op_keeps_error.
Qed.

Lemma error_flag_never_cleared_witness :
  let st := controller_with_error 1000 in
  let ops := [Op_refresh 50000 (Ok (seed_snapshot 1000)) 50100;
              Op_deliver (RealtimeTasks.Push 60000 (seed_snapshot 1000))] in
  RealtimeTasks.error st.2 = Some "Failed to initialize database"
  /\ RealtimeTasks.lastSync (foldl run_op st ops).2 = Some 60000
  /\ is_Some (RealtimeTasks.error (foldl run_op st ops).2).
Proof.
  intros st ops.
  assert (Hset : RealtimeTasks.error st.2 = Some "Failed to initialize database")
    by (vm_compute; reflexivity).
  split; [exact Hset |]. split; [vm_compute; reflexivity |].
  apply error_flag_never_cleared. rewrite Hset. by eexists.
Defined.

(** X19: [init()] leaves a non-empty collection alone as soon as one of the
    two existence probes (its own, or the one inside [initializeTasks]) is
    answered: nothing is written, the cache stays, no error is flagged.
    When both probes are answered by an error while the hook is mounted, it
    acts as a forced seed. *)
Theorem init_keeps_existing_records (st : World * RealtimeTasks.State)
    (mounted mounted' : bool) (now : Z)
    (probe_net probe_net' commit_net : option JsError) :
  remote st.1 <> ∅ ->
  (probe_net = None \/ probe_net' = None ->
   RealtimeTasks.init mounted mounted' now probe_net probe_net' commit_net st
   = st)
  /\ (forall e e' : JsError,
        RealtimeTasks.init true mounted' now (Some e) (Some e') None st
        = ((initializeTasks true now None None st.1).2, st.2)).
Proof.
  intros Hrecords. destruct st as [w s]. simpl in Hrecords. split.
  - intros [-> | ->]; unfold RealtimeTasks.init; cbn [fst snd].
    + rewrite checkTasksExist_ok. by rewrite bool_decide_eq_false_2.
    + destruct probe_net as [e |].
      * change (checkTasksExist (Some e) (remote w)) with (@Ok bool false).
        cbn [negb andb]. destruct mounted; [| done].
        by rewrite initializeTasks_existing.
      * rewrite checkTasksExist_ok. by rewrite bool_decide_eq_false_2.
  - intros e e'. unfold RealtimeTasks.init, initializeTasks. cbn [fst snd].
    rewrite checkTasksExist_ok, andb_false_r.
    change (checkTasksExist (Some e) (remote w)) with (@Ok bool false).
    change (checkTasksExist (Some e') (remote w)) with (@Ok bool false).
    reflexivity.
Qed.

Lemma init_keeps_existing_records_witness :
  let st := (loaded_world 1000, RealtimeTasks.initial) in
  RealtimeTasks.init true true 5000 (Some (FirestoreError "unavailable")) None
    None st
  = st.
Proof.
  intros st.
  assert (Hrecords : remote st.1 <> ∅).
  { apply nonempty_size. vm_compute. discriminate. }
  apply (proj1 (init_keeps_existing_records st true true 5000
                  (Some (FirestoreError "unavailable")) None None Hrecords)).
  by right.
Defined.

(* ===================================================================== *)
(** ** Further properties of the access gate *)
(* ===================================================================== *)







(** X21: a lock outlives a reload of the page.  After the login that locks
    the gate at [t], a hook mounted before [t + LOCKOUT_DURATION] on the
    storage left behind is locked and not authenticated (even if the
    session item says so), with one timer due at the lockout end; mounted at
    or after that instant it is unlocked with a counter of 0, and
    authenticated exactly when the session item was set. *)
Theorem lock_survives_reload (s0 : TesterAuth.State) (t t' : Z) (p : string) :
  TesterAuth.isLocked s0 = false ->
  MAX_ATTEMPTS <= TesterAuth.attempts s0 + 1 ->
  p <> TESTER_PASSWORD ->
  let s := (TesterAuth.login t p s0).2 in
  let s' := TesterAuth.reload t' s in
  TesterAuth.isLocked s = true
  /\ (t' < t + LOCKOUT_DURATION ->
      TesterAuth.isLocked s' = true
      /\ TesterAuth.isAuthenticated s' = false
      /\ TesterAuth.timers s' = [t + LOCKOUT_DURATION])
  /\ (t + LOCKOUT_DURATION <= t' ->
      TesterAuth.isLocked s' = false
      /\ TesterAuth.attempts s' = 0
      /\ TesterAuth.isAuthenticated s'
         = bool_decide (TesterAuth.session_auth s0 = Some "true")).
Proof.
  intros Hunlocked Hcount Hwrong s s'.
  apply String.eqb_neq in Hwrong.
  assert (Hs : TesterAuth.isLocked s = true
               /\ TesterAuth.session_auth s = TesterAuth.session_auth s0
               /\ TesterAuth.local_lockout s = Some (t + LOCKOUT_DURATION)).
  { unfold s, TesterAuth.login. rewrite Hunlocked, Hwrong. simpl negb.
    cbv iota. apply Z.leb_le in Hcount. rewrite Hcount. by simpl. }
  destruct Hs as (Hlocked & Hsession & Hstored).
  split; [done |].
  unfold s', TesterAuth.reload, TesterAuth.mount. rewrite Hstored, Hsession.
  simpl. split; intros Hwhen.
  - apply Z.ltb_lt in Hwhen. rewrite Hwhen. by simpl.
  - apply Z.ltb_ge in Hwhen. rewrite Hwhen. by simpl.
Qed.

Lemma lock_survives_reload_witness :
  let s0 := (TesterAuth.login 2000 "b"
               (TesterAuth.login 1000 "a"
                  (TesterAuth.mount 0 (Some "true") None)).2).2 in
  let s := (TesterAuth.login 3000 "c" s0).2 in
  TesterAuth.isAuthenticated s = true
  /\ TesterAuth.isAuthenticated (TesterAuth.reload 4000 s) = false
  /\ TesterAuth.isLocked (TesterAuth.reload 4000 s) = true
  /\ TesterAuth.isAuthenticated (TesterAuth.reload 303000 s) = true.
Proof.
  intros s0 s.
  destruct (lock_survives_reload s0 3000 4000 "c")
    as (_ & Hbefore & _); [reflexivity | discriminate | discriminate |].
  destruct (lock_survives_reload s0 3000 303000 "c")
    as (_ & _ & Hafter); [reflexivity | discriminate | discriminate |].
  destruct Hbefore as (Hlocked & Hout & _); [reflexivity |].
  destruct Hafter as (_ & _ & Hin); [discriminate |].
  split; [reflexivity |]. split; [exact Hout |]. split; [exact Hlocked |].
  exact Hin.
Defined.

(** X22: the attempt counter lives in the hook only.  Two wrong guesses on
    a fresh gate followed by a reload give a fresh gate again, so any number
    of such rounds leaves the gate unlocked with a counter of 0: reloading
    after every second guess never triggers the lockout. *)
Theorem reload_forgets_failed_attempts (guesses : list (Z * string * string))
    (now : Z) :
  Forall (fun g => g.1.2 <> TESTER_PASSWORD /\ g.2 <> TESTER_PASSWORD) guesses ->
  let s := foldl guess_twice_and_reload (TesterAuth.mount now None None)
             guesses in
  TesterAuth.isLocked s = false
  /\ TesterAuth.attempts s = 0
  /\ TesterAuth.isAuthenticated s = false
  /\ TesterAuth.local_lockout s = None.
Proof.
  intros Hwrong.
  assert (Hfresh : forall s : TesterAuth.State,
    (exists t, s = TesterAuth.mount t None None) ->
    exists t, foldl guess_twice_and_reload s guesses
              = TesterAuth.mount t None None).
  { induction Hwrong as [| [[t p1] p2] guesses [Hp1 Hp2] Hrest IH];
      intros s [t0 ->]; [by exists t0 |].
    simpl in Hp1, Hp2. apply String.eqb_neq in Hp1, Hp2.
    cbn [foldl]. apply IH. exists t.
    unfold guess_twice_and_reload, TesterAuth.reload, TesterAuth.login.
    cbn [fst snd TesterAuth.isLocked TesterAuth.mount TesterAuth.attempts].
    rewrite Hp1. cbn [negb fst snd TesterAuth.isLocked TesterAuth.attempts].
    change (MAX_ATTEMPTS <=? 0 + 1) with false.
    cbn [fst snd TesterAuth.isLocked TesterAuth.attempts].
    rewrite Hp2. cbn [negb].
    change (MAX_ATTEMPTS <=? 0 + 1 + 1) with false.
    reflexivity. }
  intros s. destruct (Hfresh (TesterAuth.mount now None None)) as [t Ht];
    [by exists now |].
  unfold s. rewrite Ht. by repeat split.
Qed.

Lemma reload_forgets_failed_attempts_witness :
  let guesses := [(1000, "a", "b"); (2000, "c", "d"); (3000, "e", "f")] in
  let s := foldl guess_twice_and_reload (TesterAuth.mount 0 None None) guesses in
  TesterAuth.isLocked s = false /\ TesterAuth.attempts s = 0.
Proof.
  intros guesses s.
  destruct (reload_forgets_failed_attempts guesses 0) as (Hunlocked & Hzero & _).
  - repeat constructor; discriminate.
  - split; [exact Hunlocked | exact Hzero].
Defined.

(* ===================================================================== *)
(** ** Further properties of the filter and of the figures *)
(* ===================================================================== *)

Lemma filter_twice {A : Type} (f : A -> bool) (l : list A) :
  List.filter f (List.filter f l) = List.filter f l.
Proof.
  induction l as [| x l IH]; [done |]. simpl.
  destruct (f x) eqn:Hx; simpl; [by rewrite Hx, IH | done].
Qed.

(** X23: filtering is idempotent: applying the same status filter and
    query to a filtered list returns that list. *)
Theorem filteredTasks_idempotent (tasks : list Task)
    (filterStatus : StatusFilter) (debouncedQuery : string) :
  filteredTasks (filteredTasks tasks filterStatus debouncedQuery)
    filterStatus debouncedQuery
  = filteredTasks tasks filterStatus debouncedQuery.
Proof.
  unfold filteredTasks.
  destruct (is_empty debouncedQuery && _); [done |].
  apply filter_twice.
Qed.

Lemma lower_char_space (c : ascii) : is_space c = true -> lower_char c = c.
Proof.
  destruct c as [[] [] [] [] [] [] [] []]; intros Hspace;
    vm_compute in Hspace; try discriminate Hspace; reflexivity.
Qed.

Lemma debounced_blank (q : string) : blank q = true -> debounced q = "".
Proof.
  unfold debounced, trim. induction q as [| c q IH]; [done |].
  simpl. intros [Hc Hq]%andb_true_iff.
  rewrite (lower_char_space c Hc), Hc. by apply IH.
Qed.

(** X24: a query made of white space only is no query: the filtered list
    is the one the status filter alone gives, and the whole list under
    ['all']. *)
Theorem blank_query_is_no_query (tasks : list Task)
    (filterStatus : StatusFilter) (searchQuery : string) :
  blank searchQuery = true ->
  filteredTasks tasks filterStatus (debounced searchQuery)
  = filteredTasks tasks filterStatus ""
  /\ filteredTasks tasks all (debounced searchQuery) = tasks
  /\ (forall s, filteredTasks tasks (only s) (debounced searchQuery)
                = List.filter (fun t => bool_decide (status t = s)) tasks).
Proof.
  intros Hblank. rewrite (debounced_blank searchQuery Hblank).
  by repeat split.
Qed.

Lemma blank_query_is_no_query_witness :
  let tasks := default [] (tasksCache (local (loaded_world 1000))) in
  filteredTasks tasks (only completed) (debounced "    ")
  = filteredTasks tasks (only completed) ""
  /\ length (filteredTasks tasks (only completed) (debounced "    ")) = 6%nat.
Proof.
  intros tasks.
  destruct (blank_query_is_no_query tasks (only completed) "    " eq_refl)
    as (Hsame & _).
  split; [exact Hsame |]. rewrite Hsame. vm_compute. reflexivity.
Defined.

(** X25: the statistics agree with the filter: each status count of
    [calculateStats] is the length of the list that the filter for that
    status gives with no query, and the total is the length of the
    unfiltered view. *)
Theorem stats_agree_with_filter (tasks : list Task) :
  completedTasks (calculateStats tasks)
  = Z.of_nat (length (filteredTasks tasks (only completed) ""))
  /\ inProgressTasks (calculateStats tasks)
     = Z.of_nat (length (filteredTasks tasks (only in_progress) ""))
  /\ blockedTasks (calculateStats tasks)
     = Z.of_nat (length (filteredTasks tasks (only blocked) ""))
  /\ totalTasks (calculateStats tasks)
     = Z.of_nat (length (filteredTasks tasks all "")).
Proof. by repeat split. Qed.

Lemma count_status_sum (tasks : list Task) :
  count_status completed tasks + count_status in_progress tasks
  + count_status blocked tasks + count_status pending tasks
  = Z.of_nat (length tasks).
Proof.
  unfold count_status. induction tasks as [| t tasks IH]; [done |].
  simpl. destruct (status t); simpl; lia.
Qed.

Lemma count_status_all (s : TaskStatus) (tasks : list Task) :
  Forall (fun t => status t = s) tasks ->
  count_status s tasks = Z.of_nat (length tasks).
Proof.
  unfold count_status. induction 1 as [| t tasks Ht Hrest IH]; [done |].
  simpl. rewrite bool_decide_eq_true_2 by done. simpl. lia.
Qed.

Lemma percent_table_100 : percent_table 100 = true.
Proof. vm_compute. reflexivity. Qed.

Lemma percent_table_nearest (n a b : Z) :
  percent_table n = true -> 0 <= a <= n -> 0 < b <= n ->
  200 * a - b <= 2 * b * round_percent a b <= 200 * a + b.
Proof.
  intros Htable Ha Hb. unfold percent_table in Htable.
  rewrite forallb_forall in Htable.
  assert (Hinb : In b (seqZ 1 n))
    by (apply list_elem_of_In, elem_of_seqZ; lia).
  specialize (Htable b Hinb). rewrite forallb_forall in Htable.
  assert (Hina : In a (seqZ 0 (n + 1)))
    by (apply list_elem_of_In, elem_of_seqZ; lia).
  specialize (Htable a Hina). unfold nearest_percent in Htable.
  apply andb_true_iff in Htable as [Hlow Hhigh].
  apply Z.leb_le in Hlow, Hhigh. lia.
Qed.

(** On counts up to 100 the rounded percentage is an integer nearest to the
    exact one. *)
Lemma round_percent_nearest (a b : Z) :
  0 <= a <= 100 -> 0 < b <= 100 ->
  200 * a - b <= 2 * b * round_percent a b <= 200 * a + b.
Proof. exact (percent_table_nearest 100 a b percent_table_100). Qed.

Lemma round_percent_bounds (a b : Z) :
  0 <= a <= 100 -> 0 < b <= 100 ->
  0 <= round_percent a b
  /\ (a <= b -> round_percent a b <= 100)
  /\ (b <= a -> 100 <= round_percent a b)
  /\ (a = 0 -> round_percent a b = 0).
Proof.
  intros Ha Hb. pose proof (round_percent_nearest a b Ha Hb) as Hnear.
  set (r := round_percent a b) in *. clearbody r. repeat split.
  - nia.
  - intros Hle. nia.
  - intros Hle. nia.
  - intros ->. nia.
Qed.

(** X26: the figures of [calculateStats] are consistent.  For every list
    the counts are not negative and the completed, the in-progress and the
    blocked tasks together with the pending ones make up the total.  For a
    list of at most 100 tasks the completion rate, rounded from the doubles
    of the code, is an integer nearest to the exact percentage of completed
    tasks: it lies between 0 and 100, is 100 when the list is not empty and
    all its tasks are completed, and 0 when none is. *)
Theorem calculateStats_consistent (tasks : list Task) :
  let stats := calculateStats tasks in
  0 <= completedTasks stats /\ 0 <= inProgressTasks stats
  /\ 0 <= blockedTasks stats
  /\ completedTasks stats + inProgressTasks stats + blockedTasks stats
     + count_status pending tasks = totalTasks stats
  /\ ((length tasks <= 100)%nat ->
      0 <= completionRate stats <= 100
      /\ 200 * completedTasks stats - totalTasks stats
         <= 2 * totalTasks stats * completionRate stats
         <= 200 * completedTasks stats + totalTasks stats
      /\ (tasks <> [] -> Forall (fun t => status t = completed) tasks ->
          completionRate stats = 100)
      /\ (completedTasks stats = 0 -> completionRate stats = 0)).
Proof.
  intros stats. unfold stats.
  pose proof (count_status_bounds completed tasks) as Hc.
  pose proof (count_status_bounds in_progress tasks) as Hp.
  pose proof (count_status_bounds blocked tasks) as Hb.
  split; [apply Hc |]. split; [apply Hp |]. split; [apply Hb |].
  split; [apply count_status_sum |].
  intros Hshort. unfold calculateStats.
  cbn [completionRate completedTasks totalTasks].
  set (done_ := count_status completed tasks) in *.
  set (total_ := Z.of_nat (length tasks)) in *.
  assert (Htotal : total_ <= 100) by (unfold total_; lia).
  destruct (Z.ltb_spec 0 total_) as [Hpos | Hzero].
  - pose proof (round_percent_nearest done_ total_ ltac:(lia) ltac:(lia))
      as Hnear.
    destruct (round_percent_bounds done_ total_ ltac:(lia) ltac:(lia))
      as (Hlow & Hhigh & Hfull & Hnone).
    split; [split; [exact Hlow | apply Hhigh; lia] |].
    split; [exact Hnear |]. split.
    + intros _ Hall.
      assert (Hdone : done_ = total_)
        by (unfold done_, total_; apply (count_status_all completed tasks Hall)).
      specialize (Hhigh ltac:(lia)). specialize (Hfull ltac:(lia)). lia.
    + exact Hnone.
  - assert (Hempty : tasks = [])
      by (destruct tasks; [done | unfold total_ in Hzero; simpl in Hzero; lia]).
    split; [lia |]. split; [lia |]. split; [done | done].
Qed.

Lemma calculateStats_consistent_witness :
  let tasks := default [] (tasksCache (local (loaded_world 1000))) in
  completionRate (calculateStats tasks) = 30
  /\ completionRate (calculateStats (filteredTasks tasks (only completed) ""))
     = 100.
Proof.
  intros tasks. split; [vm_compute; reflexivity |].
  destruct (calculateStats_consistent
              (filteredTasks tasks (only completed) ""))
    as (_ & _ & _ & _ & Hrate).
  destruct Hrate as (_ & _ & Hall & _).
  - vm_compute. lia.
  - apply Hall.
    + vm_compute. discriminate.
    + apply Forall_forall. intros t Ht.
      apply list_elem_of_In, filter_In in Ht as [_ Ht].
      by apply bool_decide_eq_true in Ht.
Defined.

Lemma phase_totals_step (t : Task) (tasks : list Task) :
  sum_totals (DashboardMain.phaseProgress (t :: tasks))
  = (if in_phases t then 1 else 0)
    + sum_totals (DashboardMain.phaseProgress tasks).
Proof.
  unfold sum_totals, DashboardMain.phaseProgress, DashboardMain.PHASES,
    DashboardMain.phaseTasks, in_phases.
  cbn [List.map foldr DashboardMain.total DashboardMain.range_from
       DashboardMain.range_to List.filter].
  repeat match goal with
  | |- context [?a <=? ?b] =>
      destruct (Z.leb_spec a b); cbn [andb length]
  end; lia.
Qed.

(** X27: the phases partition the days 1 to 20: for every task list the
    phase totals add up to the number of tasks whose day lies in that
    range, each such task being counted in exactly one phase and a task of
    another day in none; in each phase the completed count is at most the
    total. *)
Theorem phases_partition_tasks (tasks : list Task) :
  sum_totals (DashboardMain.phaseProgress tasks)
  = Z.of_nat (length (List.filter in_phases tasks))
  /\ Forall (fun p => 0 <= DashboardMain.completed_count p
                      <= DashboardMain.total p)
       (DashboardMain.phaseProgress tasks)
  /\ length (DashboardMain.phaseProgress tasks) = 5%nat.
Proof.
  split; [| split; [| done]].
  - induction tasks as [| t tasks IH]; [done |].
    rewrite phase_totals_step, IH. simpl.
    destruct (in_phases t); simpl; lia.
  - unfold DashboardMain.phaseProgress. apply Forall_forall.
    intros p Hp. apply list_elem_of_In, in_map_iff in Hp as (ph & <- & _).
    cbn [DashboardMain.completed_count DashboardMain.total].
    apply count_status_bounds.
Qed.

(** X28: for a current value and a total of at most 100 the percentage of
    the progress bar lies between 0 and 100, is 0 when [total] is not
    positive and 100 when [current] reaches or exceeds a positive [total];
    on the completed count and the total of a list of at most 100 tasks it
    is the completion rate of [calculateStats]. *)
Theorem percentage_bounds (current total : Z) :
  0 <= current <= 100 -> total <= 100 ->
  0 <= DashboardMain.percentage current total <= 100
  /\ (total <= 0 -> DashboardMain.percentage current total = 0)
  /\ (0 < total <= current -> DashboardMain.percentage current total = 100)
  /\ (forall tasks : list Task,
        (length tasks <= 100)%nat ->
        DashboardMain.percentage (completedTasks (calculateStats tasks))
          (totalTasks (calculateStats tasks))
        = completionRate (calculateStats tasks)).
Proof.
  intros Hcurrent Htotal. unfold DashboardMain.percentage.
  split; [| split; [| split]].
  - destruct (Z.ltb_spec 0 total) as [Hpos |]; [| lia].
    destruct (round_percent_bounds current total Hcurrent ltac:(lia))
      as (Hlow & _). lia.
  - intros Hle. destruct (Z.ltb_spec 0 total); [lia | done].
  - intros [Hpos Hfull]. destruct (Z.ltb_spec 0 total); [| lia].
    destruct (round_percent_bounds current total Hcurrent ltac:(lia))
      as (_ & _ & Hhigh & _).
    specialize (Hhigh Hfull). lia.
  - intros tasks Hshort.
    pose proof (count_status_bounds completed tasks) as Hc.
    unfold calculateStats. cbn [completionRate completedTasks totalTasks].
    destruct (Z.ltb_spec 0 (Z.of_nat (length tasks))) as [Hpos |]; [| done].
    destruct (round_percent_bounds (count_status completed tasks)
                (Z.of_nat (length tasks)) ltac:(lia) ltac:(lia))
      as (_ & Hhigh & _).
    specialize (Hhigh ltac:(lia)). lia.
Qed.

Lemma percentage_bounds_witness :
  DashboardMain.percentage 23 40 = 57
  /\ 0 <= DashboardMain.percentage 25 20 <= 100
  /\ DashboardMain.percentage 25 20 = 100.
Proof.
  destruct (percentage_bounds 25 20) as (Hbounds & _ & Hfull & _);
    [lia | lia |].
  split; [vm_compute; reflexivity |]. split; [exact Hbounds |].
  apply Hfull. lia.
Defined.

(** *** The configuration *)

Lemma or_default_given (value : option string) (fallback : string) :
  given value = true -> or_default value fallback = value.
Proof. intros Hgiven. unfold or_default. by rewrite Hgiven. Qed.

(** X29: in production [getFirebaseConfig] returns exactly when all six
    variables are set and not empty, and then returns them unchanged (no
    demo value is ever used); otherwise it throws.  Outside production it
    never throws, and the key, the auth domain and the project id of the
    result are always set and not empty. *)
Theorem getFirebaseConfig_validation (env : Env) :
  let all_given :=
    given (VITE_FIREBASE_API_KEY env) && given (VITE_FIREBASE_AUTH_DOMAIN env)
    && given (VITE_FIREBASE_PROJECT_ID env)
    && given (VITE_FIREBASE_STORAGE_BUCKET env)
    && given (VITE_FIREBASE_MESSAGING_SENDER_ID env)
    && given (VITE_FIREBASE_APP_ID env) in
  (PROD env = true ->
   (all_given = true ->
    getFirebaseConfig env
    = Ok {| apiKey := VITE_FIREBASE_API_KEY env;
            authDomain := VITE_FIREBASE_AUTH_DOMAIN env;
            projectId := VITE_FIREBASE_PROJECT_ID env;
            storageBucket := VITE_FIREBASE_STORAGE_BUCKET env;
            messagingSenderId := VITE_FIREBASE_MESSAGING_SENDER_ID env;
            appId := VITE_FIREBASE_APP_ID env |})
   /\ (all_given = false -> exists message,
         getFirebaseConfig env = Throw (Error message)))
  /\ (PROD env = false ->
      exists config,
        getFirebaseConfig env = Ok config
        /\ given (apiKey config) = true
        /\ given (authDomain config) = true
        /\ given (projectId config) = true
        /\ storageBucket config = VITE_FIREBASE_STORAGE_BUCKET env
        /\ messagingSenderId config = VITE_FIREBASE_MESSAGING_SENDER_ID env
        /\ appId config = VITE_FIREBASE_APP_ID env).
Proof.
  intros all_given.
  unfold all_given, getFirebaseConfig, config_entries, or_default.
  cbv zeta.
  cbn [List.filter snd apiKey authDomain projectId storageBucket
       messagingSenderId appId].
  destruct (given (VITE_FIREBASE_API_KEY env)) eqn:H1,
           (given (VITE_FIREBASE_AUTH_DOMAIN env)) eqn:H2,
           (given (VITE_FIREBASE_PROJECT_ID env)) eqn:H3,
           (given (VITE_FIREBASE_STORAGE_BUCKET env)) eqn:H4,
           (given (VITE_FIREBASE_MESSAGING_SENDER_ID env)) eqn:H5,
           (given (VITE_FIREBASE_APP_ID env)) eqn:H6;
    (split;
     [ intros ->; split; intros Hall; try discriminate Hall; simpl; eauto
     | intros ->; simpl; eexists; split; [reflexivity |]; simpl;
       by repeat split ]).
Qed.

Lemma getFirebaseConfig_validation_witness :
  let env := {| PROD := true;
                VITE_FIREBASE_API_KEY := Some "key";
                VITE_FIREBASE_AUTH_DOMAIN := Some "app.example.com";
                VITE_FIREBASE_PROJECT_ID := Some "app";
                VITE_FIREBASE_STORAGE_BUCKET := Some "";
                VITE_FIREBASE_MESSAGING_SENDER_ID := None;
                VITE_FIREBASE_APP_ID := Some "1:2:web:3" |} in
  exists message, getFirebaseConfig env = Throw (Error message).
Proof.
  intros env.
  destruct (getFirebaseConfig_validation env) as [Hprod _].
  destruct (Hprod eq_refl) as [_ Hmissing].
  apply Hmissing. reflexivity.
Defined.
